(** * Retrieval pipeline of the TDS virtual teaching assistant

    A shallow embedding of [app.py] (the query service: [load_data],
    [get_embedding], [answer_question]) and of [scrape_data.py] (the
    ingestion job: [get_embedding], [scrape_github], [scrape_discourse],
    [main]), followed by the properties of the retrieval pipeline.

    Conventions of the embedding.
    - A Python exception is a value: fallible code returns [result A],
      with [Raise e] for a raised exception; [try ... except Exception]
      is a match on that value.
    - The outside world (SQLite file, HTTP endpoints, the embedding and
      chat gateways) is an explicit argument of the function that talks
      to it.
    - Embedding coordinates and similarity scores are rationals: the
      development is about which rows are selected and in which order,
      not about rounding.
    - A naive [datetime] is the pair of its ordinal day and the microsecond
      within the day; Python compares naive datetimes field by field,
      which is the lexicographic order of that pair. *)

From Stdlib Require Import String Ascii List ZArith QArith Lia Bool Arith.
From Stdlib Require Import Permutation Sorted DecimalString.
Import ListNotations.

Set Implicit Arguments.
Set Warnings "-abstract-large-number".

(** ** Python values and exceptions *)

Module Python.

Inductive exn : Type :=
| ValueError
| TypeError
| IndexError
| KeyError
| JSONDecodeError
| DatabaseError
| ConnectionError                (* requests: network failure, timeout *)
| HTTPError (status : Z)         (* requests: raise_for_status *)
| HTTPException (status : Z).    (* fastapi *)

Inductive result (A : Type) : Type :=
| Ok (a : A)
| Raise (e : exn).

Arguments Ok {A} a.
Arguments Raise {A} e.

Definition bind {A B} (m : result A) (k : A -> result B) : result B :=
  match m with
  | Ok a => k a
  | Raise e => Raise e
  end.

(** [try: body except Exception: handler] *)
Definition try_except {A} (body : result A) (handler : exn -> result A)
  : result A :=
  match body with
  | Ok a => Ok a
  | Raise e => handler e
  end.

Fixpoint mapM {A B} (f : A -> result B) (l : list A) : result (list B) :=
  match l with
  | [] => Ok []
  | x :: xs =>
      bind (f x) (fun y => bind (mapM f xs) (fun ys => Ok (y :: ys)))
  end.

(** [l[i]] for a non-negative index. *)
Definition index {A} (l : list A) (i : nat) : result A :=
  match nth_error l i with
  | Some x => Ok x
  | None => Raise IndexError
  end.

(** [l[-k:]]: the last [k] items, all of [l] when [k] is [0] (the slice
    [-0:] is [0:]) or exceeds the length. *)
Definition slice_last {A} (k : nat) (l : list A) : list A :=
  match k with
  | O => l
  | S _ => skipn (length l - k) l
  end.

(** [s[:n]] on text. *)
Definition slice_to (n : nat) (s : string) : string := substring 0 n s.

Definition nl : string := String (ascii_of_nat 10) EmptyString.

(** [sep.join(parts)] *)
Fixpoint join (sep : string) (parts : list string) : string :=
  match parts with
  | [] => EmptyString
  | [p] => p
  | p :: rest => (p ++ sep ++ join sep rest)%string
  end.

Definition lower_ascii (c : ascii) : ascii :=
  let n := nat_of_ascii c in
  if (65 <=? n)%nat && (n <=? 90)%nat then ascii_of_nat (n + 32) else c.

(** [s.lower()] on ASCII text. *)
Fixpoint lower (s : string) : string :=
  match s with
  | EmptyString => EmptyString
  | String c s' => String (lower_ascii c) (lower s')
  end.

(** [sub in s] *)
Fixpoint contains (sub s : string) : bool :=
  prefix sub s ||
  match s with
  | EmptyString => false
  | String _ s' => contains sub s'
  end.

(** [s.endswith(suffix)] *)
Definition endswith (s suffix : string) : bool :=
  let n := String.length s in
  let m := String.length suffix in
  (m <=? n)%nat && String.eqb (substring (n - m) m s) suffix.

End Python.

Import Python.

Declare Scope py_scope.
Notation "x <- m ;; k" := (bind m (fun x => k))
(at level 61, m at next level, right associativity) : py_scope.
Open Scope py_scope.

(** ** The part of NumPy the service uses *)

Module Numpy.

Definition vec : Type := list Q.

(** The arrays [np.array] builds from the list of present embeddings. *)
Inductive ndarray : Type :=
| Empty1D                   (* np.array([]): shape (0,) *)
| Matrix (rows : list vec). (* shape (N, D), N >= 1 *)

(** [np.array(rows)]; rows of different lengths are refused with a
    [ValueError] (inhomogeneous shape, NumPy 1.24 and later). *)
Definition array (rows : list vec) : result ndarray :=
  match rows with
  | [] => Ok Empty1D
  | r :: rest =>
      if forallb (fun r' => (length r' =? length r)%nat) rest
      then Ok (Matrix rows)
      else Raise ValueError
  end.

(** [len(a)] *)
Definition len (a : ndarray) : nat :=
  match a with
  | Empty1D => 0
  | Matrix rows => length rows
  end.

Definition inner (u v : vec) : Q :=
  fold_left Qplus (map (fun p => fst p * snd p) (combine u v)) 0.

(** What [np.dot] returns here: a 0-d scalar or a 1-d array. *)
Inductive dotres : Type :=
| Scalar (x : Q)
| Vector (v : vec).

(** [np.dot(a, q)].  With [a] unset ([None]) the product of [None] with
    a float is a [TypeError]; shapes that do not line up are a
    [ValueError]: (0,) against (D,) unless D = 0, (N, D) against (D',)
    unless D = D'. *)
Definition dot (a : option ndarray) (q : vec) : result dotres :=
  match a with
  | None => Raise TypeError
  | Some Empty1D =>
      match q with
      | [] => Ok (Scalar 0)
      | _ :: _ => Raise ValueError
      end
  | Some (Matrix rows) =>
      if forallb (fun r => (length r =? length q)%nat) rows
      then Ok (Vector (map (fun r => inner r q) rows))
      else Raise ValueError
  end.

Definition lt (x y : Q) : bool :=
  match x ?= y with
  | Lt => true
  | _ => false
  end.

(** Insertion step of the index sort: [i] goes behind every index whose
    score is not greater. *)
Fixpoint insert (a : vec) (i : nat) (sorted : list nat) : list nat :=
  match sorted with
  | [] => [i]
  | j :: rest =>
      if lt (nth i a 0) (nth j a 0) then i :: sorted
      else j :: insert a i rest
  end.

(** [np.argsort(a)] on a 1-d array: the indices by ascending score.
    The call uses the default kind, which is not stable: NumPy fixes the
    order of the values, not the order in which the indices of equal
    values come out, and that order changes with the build and the
    length.  [argsort1] is one such sort, by insertion, which leaves equal
    scores in index order.  Properties stated with it do not rest on the
    order of equal scores; what does is stated for every sort with
    NumPy's contract ([Selection.sorts]). *)
Definition argsort1 (a : vec) : list nat :=
  fold_left (fun acc i => insert a i acc) (seq 0 (length a)) [].

(** [np.argsort] treats a 0-d value as a one-item array. *)
Definition argsort (s : dotres) : list nat :=
  match s with
  | Scalar _ => [0%nat]
  | Vector v => argsort1 v
  end.

End Numpy.

(** ** The Content Store: table [content] of [tds_data.db] *)

Module Store.

(** Column [embedding TEXT]. *)
Inductive column : Type :=
| Null                      (* SQL NULL *)
| Json (v : Numpy.vec)      (* the text json.dumps writes for v *)
| Garbled.                  (* text that json.loads rejects *)

Record Row : Type := mkRow {
  r_id : Z;
  r_source : string;
  r_content : string;
  r_url : string;
  r_title : string;
  r_embedding : column
}.

Definition table : Type := list Row.

End Store.

(** ** The embedding and chat gateways (AI Proxy) *)

Module Gateway.

(** JSON body of an embeddings request. *)
Record EmbeddingPayload : Type := mkEmbeddingPayload {
  e_model : string;
  e_input : string
}.

(** The embeddings endpoint as seen by one caller: the vector of
    [response.json()["data"][0]["embedding"]], or the exception raised
    by the post, by [raise_for_status] or by the lookup. *)
Definition embedder : Type := EmbeddingPayload -> result Numpy.vec.

(** JSON body of a chat-completions request: the system message, the
    text part of the user message and the optional image part. *)
Record ChatPayload : Type := mkChatPayload {
  c_model : string;
  c_system : string;
  c_user_text : string;
  c_image_url : option string
}.

(** The chat endpoint: [result["choices"][0]["message"]["content"]], or
    the exception raised on the way. *)
Definition generator : Type := ChatPayload -> result string.

End Gateway.

(** ** app.py *)

Module App.

Import Numpy Store Gateway.

(** An item of the global list [data]. *)
Record Document : Type := mkDocument {
  id : Z;
  source : string;
  content : string;
  url : string;
  title : string;
  embedding : option vec
}.

Record QuestionRequest : Type := mkQuestionRequest {
  question : string;
  image : option string
}.

Record Link : Type := mkLink {
  l_url : string;
  l_text : string
}.

Record AnswerResponse : Type := mkAnswerResponse {
  answer : string;
  links : list Link
}.

(** The module globals [data] and [embeddings]. *)
Record Globals : Type := mkGlobals {
  data : list Document;
  embeddings : option ndarray
}.

(** [data = []], [embeddings = None] *)
Definition initial : Globals := mkGlobals [] None.

Definition embedding_payload (text : string) : EmbeddingPayload :=
  mkEmbeddingPayload "text-embedding-3-small" (slice_to 8192 text).

(** [get_embedding]: any failure becomes an [HTTPException] 500. *)
Definition get_embedding (gw : embedder) (text : string) : result vec :=
  try_except (gw (embedding_payload text))
             (fun _ => Raise (HTTPException 500)).

(** [json.loads(r[5]) if r[5] else None] *)
Definition decode_embedding (c : column) : result (option vec) :=
  match c with
  | Null => Ok None
  | Json v => Ok (Some v)
  | Garbled => Raise JSONDecodeError
  end.

Definition decode_row (r : Row) : result Document :=
  e <- decode_embedding (r_embedding r) ;;
  Ok (mkDocument (r_id r) (r_source r) (r_content r) (r_url r)
                 (r_title r) e).

(** Truth value of [d["embedding"]]: [None] and [[]] are false. *)
Definition truthy (e : option vec) : bool :=
  match e with
  | Some (_ :: _) => true
  | _ => false
  end.

(** [[d["embedding"] for d in data if d["embedding"]]] *)
Fixpoint present_embeddings (docs : list Document) : list vec :=
  match docs with
  | [] => []
  | d :: rest =>
      match embedding d with
      | Some (x :: v) => (x :: v) :: present_embeddings rest
      | _ => present_embeddings rest
      end
  end.

(** [load_data], the startup hook.  [db] is what connecting, running the
    SELECT and [fetchall] give: the rows in table order, or the
    exception.  The two globals are assigned one after the other inside
    the [try]; an exception leaves the later assignments undone. *)
Definition load_data (db : result table) (g : Globals) : Globals :=
  match db with
  | Raise _ => g
  | Ok rows =>
      match mapM decode_row rows with
      | Raise _ => g
      | Ok docs =>
          match array (present_embeddings docs) with
          | Raise _ => mkGlobals docs (embeddings g)
          | Ok m => mkGlobals docs (Some m)
          end
      end
  end.

(** [len(embeddings)]; [len(None)] is a [TypeError]. *)
Definition len_embeddings (g : Globals) : result nat :=
  match embeddings g with
  | None => Raise TypeError
  | Some a => Ok (len a)
  end.

(** Lines 65 to 67 of [answer_question]: the selected indices. *)
Definition top_k_indices (g : Globals) (q : vec) : result (list nat) :=
  similarities <- dot (embeddings g) q ;;
  n <- len_embeddings g ;;
  let k := Nat.min 5 n in
  Ok (rev (slice_last k (argsort similarities))).

(** Line 68: [[data[i] for i in top_k_indices]]. *)
Definition top_k_data (g : Globals) (q : vec) : result (list Document) :=
  idx <- top_k_indices g q ;;
  mapM (index (data g)) idx.

Definition system_prompt : string :=
  "You are a Teaching Assistant for the Tools in Data Science course at IIT Madras. Answer questions based on the provided course content and Discourse posts. Provide concise answers and avoid generating links.".

Definition user_prompt (context q : string) : string :=
  ("Based on the following course content and Discourse posts, answer the question."
     ++ nl ++ nl ++ "Course content:" ++ nl ++ context
     ++ nl ++ nl ++ "Question: " ++ q)%string.

Definition chat_payload (context : string) (req : QuestionRequest)
  : ChatPayload :=
  mkChatPayload "gpt-4o-mini" system_prompt
    (user_prompt context (question req))
    (match image req with
     | Some (String c s) =>
         Some ("data:image/webp;base64," ++ String c s)%string
     | _ => None
     end).

Definition link_of (d : Document) : Link := mkLink (url d) (title d).

(** The body of the [try] of [answer_question]. *)
Definition answer_body (gw : embedder) (gen : generator) (g : Globals)
           (req : QuestionRequest) : result AnswerResponse :=
  q_embedding <- get_embedding gw (question req) ;;
  top <- top_k_data g q_embedding ;;
  let context := join nl (map content top) in
  ans <- gen (chat_payload context req) ;;
  Ok (mkAnswerResponse ans (map link_of top)).

(** [answer_question]: the response, or [HTTPException] 500.  The
    globals are read, never written. *)
Definition answer_question (gw : embedder) (gen : generator) (g : Globals)
           (req : QuestionRequest) : result AnswerResponse :=
  try_except (answer_body gw gen g req)
             (fun _ => Raise (HTTPException 500)).


End App.

(** ** scrape_data.py *)

Module ScrapeData.

Import Numpy Store Gateway.

(** What [requests.get] hands back: a response with its status code and
    body, or the exception it raised (timeout, connection failure). *)
Inductive response (A : Type) : Type :=
| Response (status : Z) (body : A)
| NoResponse (e : exn).

Arguments Response {A} status body.
Arguments NoResponse {A} e.

(** [response.raise_for_status()] raises on 4xx and 5xx. *)
Definition is_error_status (status : Z) : bool :=
  ((400 <=? status) && (status <? 600))%Z.

(** [get], [raise_for_status], [json()] in a row; the body carries the
    outcome of decoding it and reading the expected fields. *)
Definition checked_json {A} (r : response (result A)) : result A :=
  match r with
  | NoResponse e => Raise e
  | Response status body =>
      if is_error_status status then Raise (HTTPError status) else body
  end.

(** An item yielded by a fetcher. *)
Record RawDocument : Type := mkRawDocument {
  source : string;
  content : string;
  url : string;
  title : string
}.

Definition embedding_payload (text : string) : EmbeddingPayload :=
  mkEmbeddingPayload "text-embedding-3-small" (slice_to 8192 text).

(** [get_embedding]: the vector, or [None] after any failure. *)
Definition get_embedding (gw : embedder) (text : string) : option vec :=
  match gw (embedding_payload text) with
  | Ok v => Some v
  | Raise _ => None
  end.

(** *** The file-archive fetcher *)

Record FileEntry : Type := mkFileEntry {
  f_type : string;
  f_name : string;
  f_download_url : string;
  f_html_url : string
}.

(** The GitHub side: the answer to the contents request at each attempt
    of the retry loop, and the answer to each download. *)
Record GitHub : Type := mkGitHub {
  listing : nat -> response (result (list FileEntry));
  download : string -> response string
}.

Definition wanted (f : FileEntry) : bool :=
  String.eqb (f_type f) "file"
  && (endswith (f_name f) ".md" || endswith (f_name f) ".txt").

(** The loop over [files]; a download that raises ends the attempt. *)
Fixpoint collect_files (gh : GitHub) (files : list FileEntry)
  : result (list RawDocument) :=
  match files with
  | [] => Ok []
  | f :: rest =>
      if wanted f then
        match download gh (f_download_url f) with
        | NoResponse e => Raise e
        | Response status text =>
            more <- collect_files gh rest ;;
            Ok (if (status =? 200)%Z
                then mkRawDocument "github" text (f_html_url f) (f_name f)
                       :: more
                else more)
        end
      else collect_files gh rest
  end.

(** [for attempt in range(3)], over the attempts still to make.  The
    second component lists the arguments of [time.sleep], in order. *)
Fixpoint github_attempts (gh : GitHub) (attempts : list nat)
  : list RawDocument * list Z :=
  match attempts with
  | [] => ([], [])
  | attempt :: rest =>
      match listing gh attempt with
      | NoResponse _ => ([], [])
      | Response status body =>
          if is_error_status status then
            if (status =? 503)%Z then
              let (docs, sleeps) := github_attempts gh rest in
              (docs, (2 ^ Z.of_nat attempt)%Z :: sleeps)
            else ([], [])
          else
            match (files <- body ;; collect_files gh files) with
            | Ok docs => (docs, [])
            | Raise _ => ([], [])
            end
      end
  end.

Definition scrape_github_log (gh : GitHub) : list RawDocument * list Z :=
  github_attempts gh (seq 0 3).

Definition scrape_github (gh : GitHub) : list RawDocument :=
  fst (scrape_github_log gh).

(** *** The forum fetcher *)

Record datetime : Type := mkDatetime {
  day : Z;      (* ordinal of the date *)
  usec : Z      (* microsecond of the day *)
}.

(** [a <= b] on naive datetimes. *)
Definition dt_le (a b : datetime) : bool :=
  ((day a <? day b) || ((day a =? day b) && (usec a <=? usec b)))%Z.

(** [start <= x <= stop] *)
Definition between (start x stop : datetime) : bool :=
  dt_le start x && dt_le x stop.

(** The date part of a timestamp, read back as a datetime:
    [strptime(s.split("T")[0], "%Y-%m-%d")]. *)
Definition midnight (d : datetime) : datetime := mkDatetime (day d) 0.

(** [strptime]: a text it cannot read is a [ValueError]. *)
Definition strptime (s : option datetime) : result datetime :=
  match s with
  | Some d => Ok d
  | None => Raise ValueError
  end.

Record Category : Type := mkCategory {
  cat_name : string;
  cat_id : Z
}.

Record Subcategory : Type := mkSubcategory {
  sub_name : string;
  sub_slug : string;
  sub_id : Z
}.

(** A topic of a category page; [topic_created_at] is the instant its
    [created_at] text denotes, [None] when the text is unreadable. *)
Record Topic : Type := mkTopic {
  topic_id : Z;
  topic_title : string;
  topic_created_at : option datetime
}.

Record Post : Type := mkPost {
  post_created_at : option datetime;
  cooked : string;
  post_number : Z
}.

Record CategoryPage : Type := mkCategoryPage {
  subcategories : list Subcategory;
  topics : list Topic
}.

(** The forum during one run, one answer per URL. *)
Record Forum : Type := mkForum {
  session_current : response (result string);
  categories : response (result (list Category));
  category_page : Z -> response (result CategoryPage);
  topic_page : Z -> response (result (list Post))
}.

Definition DISCOURSE_URL : string :=
  "https://discourse.onlinedegree.iitm.ac.in".

Definition keywords : list string :=
  ["tools in data science"; "tds"; "data science"]%string.

Definition str_Z (z : Z) : string :=
  DecimalString.NilZero.string_of_int (Z.to_int z).

(** First category whose lowered name holds a keyword. *)
Fixpoint find_category (cats : list Category) : option Z :=
  match cats with
  | [] => None
  | c :: rest =>
      if existsb (fun kw => contains kw (lower (cat_name c))) keywords
      then Some (cat_id c)
      else find_category rest
  end.

Fixpoint find_subcategory (subs : list Subcategory) (current : Z) : Z :=
  match subs with
  | [] => current
  | s :: rest =>
      if contains "tools-in-data-science" (lower (sub_slug s))
      then sub_id s
      else find_subcategory rest current
  end.

(** [not category_id]: [None] and [0] are false values. *)
Definition unset (c : option Z) : bool :=
  match c with
  | None => true
  | Some z => (z =? 0)%Z
  end.

(** Lines 86 to 115: the category to read, [None] for the early
    [return []]. *)
Definition resolve_category (f : Forum) : result (option Z) :=
  _ <- checked_json (session_current f) ;;
  cats <- checked_json (categories f) ;;
  let found := find_category cats in
  if unset found then
    page <- checked_json (category_page f 9) ;;
    let category_id := find_subcategory (subcategories page) 9 in
    if (category_id =? 0)%Z then Ok None else Ok (Some category_id)
  else Ok found.

Definition post_document (t : Topic) (p : Post) : RawDocument :=
  mkRawDocument "discourse" (cooked p)
    (DISCOURSE_URL ++ "/t/" ++ str_Z (topic_id t) ++ "/"
       ++ str_Z (post_number p))%string
    (topic_title t).

(** The loop over the posts of one topic. *)
Fixpoint keep_posts (start stop : datetime) (t : Topic) (posts : list Post)
  : result (list RawDocument) :=
  match posts with
  | [] => Ok []
  | p :: rest =>
      post_date <- strptime (post_created_at p) ;;
      more <- keep_posts start stop t rest ;;
      Ok (if between start post_date stop
          then post_document t p :: more
          else more)
  end.

(** The body of the loop over [topics] for one topic. *)
Definition topic_posts (f : Forum) (start stop : datetime) (t : Topic)
  : result (list RawDocument) :=
  created <- strptime (topic_created_at t) ;;
  if between start (midnight created) stop then
    match topic_page f (topic_id t) with
    | NoResponse e => Raise e
    | Response status body =>
        if (status =? 200)%Z
        then posts <- body ;; keep_posts start stop t posts
        else Ok []
    end
  else Ok [].

Fixpoint collect_posts (f : Forum) (start stop : datetime)
         (ts : list Topic) : result (list RawDocument) :=
  match ts with
  | [] => Ok []
  | t :: rest =>
      mine <- topic_posts f start stop t ;;
      more <- collect_posts f start stop rest ;;
      Ok (mine ++ more)
  end.

(** The body of the [try] of [scrape_discourse]. *)
Definition discourse_body (f : Forum) (start stop : datetime)
  : result (list RawDocument) :=
  category <- resolve_category f ;;
  match category with
  | None => Ok []
  | Some category_id =>
      page <- checked_json (category_page f category_id) ;;
      collect_posts f start stop (topics page)
  end.

Definition scrape_discourse (f : Forum) (start stop : datetime)
  : list RawDocument :=
  match discourse_body f start stop with
  | Ok posts => posts
  | Raise _ => []
  end.

(** *** Persisting *)

(** The rowid SQLite gives a new row of an [INTEGER PRIMARY KEY] table:
    one more than the largest in use, 1 in an empty table.  Once the
    largest is 9223372036854775807 SQLite draws an unused rowid at random
    instead; tables that full are outside the model. *)
Definition next_id (t : table) : Z :=
  match t with
  | [] => 1
  | r :: rest => (fold_left Z.max (map r_id rest) (r_id r) + 1)%Z
  end.

(** [json.dumps(embedding) if embedding else None] *)
Definition encode (e : option vec) : column :=
  match e with
  | Some (x :: v) => Json (x :: v)
  | _ => Null
  end.

(** The INSERT of the loop of [main]. *)
Definition insert (t : table) (item : RawDocument) (e : option vec)
  : table :=
  t ++ [mkRow (next_id t) (source item) (content item) (url item)
              (title item) (encode e)].

(** The loop of [main]: table and [stored_count] after each item. *)
Fixpoint store_all (gw : embedder) (items : list RawDocument)
         (t : table) (stored_count : nat) : table * nat :=
  match items with
  | [] => (t, stored_count)
  | item :: rest =>
      let e := get_embedding gw (content item) in
      store_all gw rest (insert t item e) (S stored_count)
  end.

Definition start_date : datetime := mkDatetime 739252 0. (* 2025-01-01 *)
Definition end_date : datetime := mkDatetime 739420 0.   (* 2025-06-18 *)

(** [main]: the table after the run and the count it prints.  A table
    that did not exist yet is the empty one. *)
Definition main (gh : GitHub) (f : Forum) (gw : embedder) (t : table)
  : table * nat :=
  let github_content := scrape_github gh in
  let discourse_posts := scrape_discourse f start_date end_date in
  let all_content := github_content ++ discourse_posts in
  store_all gw all_content t 0.

End ScrapeData.

(** ** Vocabulary of the properties *)

Module Ranking.

Import Numpy.

Definition score (a : vec) (i : nat) : Q := nth i a 0.

(** [i] comes before [j] in the index sort of [a]: by score, equal
    scores by index. *)
Definition ascending (a : vec) (i j : nat) : Prop :=
  score a i < score a j \/ (score a i == score a j /\ (i < j)%nat).

(** The order of the selected indices: by falling score, equal scores
    by falling index. *)
Definition descending (a : vec) (i j : nat) : Prop := ascending a j i.

End Ranking.

Module Examples.

Import Numpy Store App.

Definition stored (i : Z) (name : string) (c : column) : Row :=
  mkRow i "github" ("content of " ++ name)
        ("https://github.com/sanand0/tools-in-data-science-public/blob/main/"
           ++ name)
        name c.

Definition loaded (i : Z) (name : string) (e : option vec) : Document :=
  mkDocument i "github" ("content of " ++ name)
        ("https://github.com/sanand0/tools-in-data-science-public/blob/main/"
           ++ name)
        name e.

(** The three-document corpus of the end-to-end scenario, D = 2. *)
Definition scenario : table :=
  [stored 1 "doc1.md" (Json [1; 0]);
   stored 2 "doc2.md" (Json [0; 1]);
   stored 3 "doc3.md" (Json [7#10; 7#10])].

(** A store whose first document has no embedding. *)
Definition gappy : table :=
  [stored 1 "failed.md" Null;
   stored 2 "embedded.md" (Json [1; 0])].


End Examples.

Module Corpus.

Import Numpy Store App.

(** The document [load_data] makes of a row whose embedding decodes. *)
Definition document_of (r : Row) : Document :=
  mkDocument (r_id r) (r_source r) (r_content r) (r_url r) (r_title r)
    (match r_embedding r with
     | Json v => Some v
     | _ => None
     end).

Definition vector_of (r : Row) : vec :=
  match r_embedding r with
  | Json v => v
  | _ => []
  end.

(** Every row holds an embedding of dimension [D], [D >= 1]. *)
Definition complete (D : nat) (rows : table) : Prop :=
  Forall (fun r => exists x v,
              r_embedding r = Json (x :: v) /\ length (x :: v) = D) rows.

(** No row holds an embedding: N = 0. *)
Definition unembedded (rows : table) : Prop :=
  Forall (fun r => r_embedding r = Null) rows.

(** The similarity of each row to the query, in table order. *)
Definition scores_of (rows : table) (q : vec) : vec :=
  map (fun r => inner (vector_of r) q) rows.


End Corpus.

Module Oracles.

Import Gateway.

(** A gateway that answers every embeddings request with [v]. *)
Definition embeds_as (v : Numpy.vec) : embedder := fun _ => Ok v.

(** A chat endpoint that always answers [s]. *)
Definition answers (s : string) : generator := fun _ => Ok s.

End Oracles.

Module Ingestion.

Import Numpy Store Gateway ScrapeData.

(** Row [r] is item [item] as the loop of [main] writes it: the four
    text fields, and the vector the gateway returned, absent when the
    call failed (or returned no coordinates). *)
Definition persisted (gw : embedder) (item : RawDocument) (r : Row) : Prop :=
  r_source r = source item /\ r_content r = content item
  /\ r_url r = url item /\ r_title r = title item
  /\ (forall e, gw (embedding_payload (content item)) = Raise e ->
                r_embedding r = Null)
  /\ (forall x v, gw (embedding_payload (content item)) = Ok (x :: v) ->
                  r_embedding r = Json (x :: v)).

(** Rows of the table with the identity [(s, u)]. *)
Definition count_rows (s u : string) (t : table) : nat :=
  length (filter (fun r => String.eqb (r_source r) s && String.eqb (r_url r) u)
                 t).

(** Fetched items with the identity [(s, u)]. *)
Definition count_items (s u : string) (items : list RawDocument) : nat :=
  length (filter (fun d => String.eqb (source d) s && String.eqb (url d) u)
                 items).

(** What one run fetches. *)
Definition all_content (gh : GitHub) (f : Forum) : list RawDocument :=
  scrape_github gh ++ scrape_discourse f start_date end_date.

(** The contents request answered 503. *)
Definition unavailable (r : response (result (list FileEntry))) : Prop :=
  exists body, r = Response 503 body.

(** The contents request answered with a listing from which [docs] are
    collected. *)
Definition lists (gh : GitHub) (r : response (result (list FileEntry)))
           (docs : list RawDocument) : Prop :=
  exists status files,
    r = Response status (Ok files) /\ is_error_status status = false
    /\ collect_files gh files = Ok docs.

(** The attempt failed in another way than by a 503 on the contents
    request: no response, another 4xx or 5xx status, or an exception
    while decoding the listing or downloading a file. *)
Definition fails_for_good (gh : GitHub)
           (r : response (result (list FileEntry))) : Prop :=
  (exists e, r = NoResponse e)
  \/ (exists status body, r = Response status body
                          /\ is_error_status status = true /\ status <> 503%Z)
  \/ (exists status body e,
         r = Response status body /\ is_error_status status = false
         /\ (files <- body ;; collect_files gh files) = Raise e).

(** The session check, the first request of the forum fetcher, failed. *)
Definition unreachable (f : Forum) : Prop :=
  exists e, checked_json (session_current f) = Raise e.

(** The sleeps of the first [n] attempts: 1, 2, 4, ... *)
Definition backoff (n : nat) : list Z :=
  map (fun attempt => (2 ^ Z.of_nat attempt)%Z) (seq 0 n).

(** Post [p] of topic [t] passes both date tests and its topic page was
    read with status 200: the condition under which the forum fetcher
    yields [d]. *)
Definition yields (f : Forum) (start stop : datetime) (ts : list Topic)
           (d : RawDocument) : Prop :=
  exists t created posts p stamp,
    In t ts
    /\ topic_created_at t = Some created
    /\ between start (midnight created) stop = true
    /\ topic_page f (topic_id t) = Response 200 (Ok posts)
    /\ In p posts
    /\ post_created_at p = Some stamp
    /\ between start stamp stop = true
    /\ d = post_document t p.

End Ingestion.

Module Worlds.

Import Numpy Store Gateway ScrapeData.

Definition readme : FileEntry :=
  mkFileEntry "file" "README.md"
    "https://raw.githubusercontent.com/sanand0/tools-in-data-science-public/main/README.md"
    "https://github.com/sanand0/tools-in-data-science-public/blob/main/README.md".

Definition readme_document : RawDocument :=
  mkRawDocument "github" "# Tools in Data Science" (f_html_url readme)
                "README.md".

Definition serves_readme : string -> response string :=
  fun _ => Response 200 "# Tools in Data Science"%string.

(** GitHub answering the contents request with [status] twice and with
    the listing at the third attempt. *)
Definition twice_then_listing (status : Z) : GitHub :=
  mkGitHub (fun attempt =>
              match attempt with
              | 0%nat | 1%nat => Response status (Raise JSONDecodeError)
              | _ => Response 200 (Ok [readme])
              end)
           serves_readme.

(** GitHub answering every contents request with 503. *)
Definition always_503 : GitHub :=
  mkGitHub (fun _ => Response 503 (Raise JSONDecodeError)) serves_readme.

(** GitHub listing the readme at once. *)
Definition github_up : GitHub :=
  mkGitHub (fun _ => Response 200 (Ok [readme])) serves_readme.

Definition tds : Category := mkCategory "Tools in Data Science" 34.

(** A forum with one category and the given topics and topic pages. *)
Definition forum_with (ts : list Topic)
           (pages : Z -> response (result (list Post))) : Forum :=
  mkForum (Response 200 (Ok "student"%string))
          (Response 200 (Ok [tds]))
          (fun _ => Response 200 (Ok (mkCategoryPage [] ts)))
          pages.

(** A forum whose session check answers 503. *)
Definition forum_503 : Forum :=
  mkForum (Response 503 (Raise JSONDecodeError))
          (Response 200 (Ok [tds]))
          (fun _ => Response 200 (Ok (mkCategoryPage [] [])))
          (fun _ => Response 200 (Ok [])).

(** 2024-12-31 at 10:00, the day before the window of [main] opens. *)
Definition eve : datetime := mkDatetime 739251 36000000000.

(** 2025-01-01 at 09:00, the first day of the window. *)
Definition first_morning : datetime := mkDatetime 739252 32400000000.

(** A topic opened on the eve with a reply on the first day. *)
Definition old_topic : Topic := mkTopic 7 "Week 1 doubts" (Some eve).

Definition reply : Post := mkPost (Some first_morning) "<p>reply</p>" 2.

Definition forum_old_topic : Forum :=
  forum_with [old_topic] (fun _ => Response 200 (Ok [reply])).

(** A topic opened on the first day, with a post of the eve and one of
    the first day. *)
Definition new_topic : Topic := mkTopic 8 "Project 1" (Some first_morning).

Definition early_post : Post := mkPost (Some eve) "<p>early</p>" 1.

Definition forum_new_topic : Forum :=
  forum_with [new_topic] (fun _ => Response 200 (Ok [early_post; reply])).

(** A gateway that fails on the text ["# Tools in Data Science"] and
    embeds everything else as [[1; 0]]. *)
Definition fails_on_readme : embedder :=
  fun p => if String.eqb (e_input p) "# Tools in Data Science"
           then Raise ConnectionError
           else Ok [1; 0].

(** The store after a first run that fetched the readme. *)
Definition after_first_run : table :=
  [mkRow 1 "github" "# Tools in Data Science" (f_html_url readme)
         "README.md" (Json [1; 0])].

End Worlds.

Module Texts.

(** A text of [n] units. *)
Fixpoint filler (n : nat) : string :=
  match n with
  | O => EmptyString
  | S n' => String "a"%char (filler n')
  end.

End Texts.

Module Retrieval.

Import Numpy Store App Corpus.

(** The score of a loaded document against the query: the product of
    its own embedding with [q]. *)
Definition similarity (q : vec) (d : Document) : Q :=
  inner (match embedding d with
         | Some v => v
         | None => []
         end) q.

(** Every row decodes. *)
Definition readable (rows : table) : Prop :=
  Forall (fun r => r_embedding r <> Garbled) rows.

(** Every row decodes and the embeddings that are present have
    dimension [D]; rows without embedding are allowed. *)
Definition uniform (D : nat) (rows : table) : Prop :=
  Forall (fun r => match r_embedding r with
                   | Garbled => False
                   | Json (x :: v) => length (x :: v) = D
                   | _ => True
                   end) rows.

(** N: the number of rows of the matrix built from the table. *)
Definition embedded_count (rows : table) : nat :=
  length (present_embeddings (map document_of rows)).

(** Two rows hold embeddings of different dimensions. *)
Definition ragged (rows : table) : Prop :=
  exists r1 r2 x1 v1 x2 v2,
    In r1 rows /\ In r2 rows
    /\ r_embedding r1 = Json (x1 :: v1) /\ r_embedding r2 = Json (x2 :: v2)
    /\ length v1 <> length v2.

End Retrieval.

Module Pipeline.

Import Numpy Store Gateway ScrapeData.

(** Row [r] is what the INSERT of [main] writes for [item]. *)
Definition written (gw : embedder) (item : RawDocument) (r : Row) : Prop :=
  r_source r = source item /\ r_content r = content item
  /\ r_url r = url item /\ r_title r = title item
  /\ r_embedding r = encode (get_embedding gw (content item)).

(** Document [d] of the query service is the fetched [item]: the same
    four texts, and as embedding the vector the gateway returned for it
    at ingestion, absent when it returned none. *)
Definition loaded_as (gw : embedder) (item : RawDocument)
           (d : App.Document) : Prop :=
  App.source d = source item /\ App.content d = content item
  /\ App.url d = url item /\ App.title d = title item
  /\ App.embedding d
     = match gw (embedding_payload (content item)) with
       | Ok (x :: v) => Some (x :: v)
       | _ => None
       end.

(** The gateway embeds [item] with a vector of dimension [D]. *)
Definition embeds_at (gw : embedder) (D : nat) (item : RawDocument) : Prop :=
  exists x v, gw (embedding_payload (content item)) = Ok (x :: v)
              /\ length (x :: v) = D.

(** The ids [first], [first + 1], ... of [n] rows. *)
Definition ids_from (first : Z) (n : nat) : list Z :=
  map (fun i => (first + Z.of_nat i)%Z) (seq 0 n).

(** Sum of the sleeps of a run. *)
Definition total (sleeps : list Z) : Z := fold_right Z.add 0%Z sleeps.

(** The test of the loop over the categories. *)
Definition matches_keyword (c : Category) : bool :=
  existsb (fun kw => contains kw (lower (cat_name c))) keywords.

(** The test of the loop over the subcategories. *)
Definition matches_slug (s : Subcategory) : bool :=
  contains "tools-in-data-science" (lower (sub_slug s)).

(** [cat] is the first listed category that passes the keyword test. *)
Definition first_category (cats : list Category) (cat : Category) : Prop :=
  exists before after,
    cats = before ++ cat :: after
    /\ Forall (fun c => matches_keyword c = false) before
    /\ matches_keyword cat = true.

(** The loop over the categories leaves [category_id] false: no
    category passes the test, or the first that does has id 0. *)
Definition no_category (cats : list Category) : Prop :=
  Forall (fun c => matches_keyword c = false) cats
  \/ exists cat, first_category cats cat /\ cat_id cat = 0%Z.

(** [sub] is the first listed subcategory that passes the slug test. *)
Definition first_subcategory (subs : list Subcategory) (sub : Subcategory)
  : Prop :=
  exists before after,
    subs = before ++ sub :: after
    /\ Forall (fun s => matches_slug s = false) before
    /\ matches_slug sub = true.

(** Topic [t] makes the loop over the topics raise: its date is
    unreadable, or it lies in the window and its page cannot be fetched or
    decoded, or a post of the page has an unreadable date. *)
Definition spoils (f : Forum) (start stop : datetime) (t : Topic) : Prop :=
  topic_created_at t = None
  \/ exists created,
       topic_created_at t = Some created
       /\ between start (midnight created) stop = true
       /\ ((exists e, topic_page f (topic_id t) = NoResponse e)
           \/ (exists e, topic_page f (topic_id t) = Response 200 (Raise e))
           \/ (exists posts p,
                 topic_page f (topic_id t) = Response 200 (Ok posts)
                 /\ In p posts /\ post_created_at p = None)).

End Pipeline.

Module MoreWorlds.

Import Numpy Store Gateway ScrapeData Worlds.

Definition notes : FileEntry :=
  mkFileEntry "file" "notes.txt"
    "https://raw.githubusercontent.com/sanand0/tools-in-data-science-public/main/notes.txt"
    "https://github.com/sanand0/tools-in-data-science-public/blob/main/notes.txt".

(** GitHub listing the readme and the notes; the download of the notes
    times out. *)
Definition notes_time_out : GitHub :=
  mkGitHub (fun _ => Response 200 (Ok [readme; notes]))
           (fun u => if String.eqb u (f_download_url notes)
                     then NoResponse ConnectionError
                     else Response 200 "# Tools in Data Science"%string).

(** A topic of the window whose page cannot be fetched. *)
Definition lost_topic : Topic := mkTopic 9 "Week 2" (Some first_morning).

(** A forum with a good topic and one whose page times out. *)
Definition forum_lost_page : Forum :=
  forum_with [new_topic; lost_topic]
             (fun i => if (i =? 9)%Z then NoResponse ConnectionError
                       else Response 200 (Ok [reply])).

(** A forum with a good topic and one whose page is answered 503. *)
Definition forum_page_503 : Forum :=
  forum_with [new_topic; lost_topic]
             (fun i => if (i =? 9)%Z then Response 503 (Raise JSONDecodeError)
                       else Response 200 (Ok [reply])).

(** A forum whose categories match no keyword and whose Courses page
    lists the course as a subcategory. *)
Definition forum_subcategory : Forum :=
  mkForum (Response 200 (Ok "student"%string))
          (Response 200 (Ok [mkCategory "Mathematics" 12]))
          (fun _ => Response 200
                      (Ok (mkCategoryPage
                             [mkSubcategory "Statistics" "statistics-kb" 30;
                              mkSubcategory "TDS" "Tools-in-Data-Science-kb" 34]
                             [new_topic])))
          (fun _ => Response 200 (Ok [reply])).

(** A forum whose only categories match no keyword and whose Courses
    page lists no subcategory. *)
Definition forum_other_courses : Forum :=
  mkForum (Response 200 (Ok "student"%string))
          (Response 200 (Ok [mkCategory "Mathematics" 12]))
          (fun _ => Response 200 (Ok (mkCategoryPage [] [])))
          (fun _ => Response 200 (Ok [])).

End MoreWorlds.

Module Selection.

Import Numpy App Ranking.


(** [np.argsort] with [sort] on 1-d arrays. *)
Definition argsort_by (sort : vec -> list nat) (s : dotres) : list nat :=
  match s with
  | Scalar _ => [0%nat]
  | Vector v => sort v
  end.

(** Lines 65 to 67 of [answer_question], [np.argsort] being [sort]. *)
Definition top_k_indices_by (sort : vec -> list nat) (g : Globals) (q : vec)
  : result (list nat) :=
  similarities <- dot (embeddings g) q ;;
  n <- len_embeddings g ;;
  let k := Nat.min 5 n in
  Ok (rev (slice_last k (argsort_by sort similarities))).



End Selection.

(** * Properties *)

(** ** The index sort *)

Section IndexSort.

Import Numpy Ranking.

Variable a : vec.

Lemma lt_true (x y : Q) : lt x y = true <-> x < y.
Proof.
  unfold lt. rewrite Qlt_alt.
  destruct (x ?= y); split; intro H; congruence.
Qed.

Lemma lt_false (x y : Q) : lt x y = false <-> y <= x.
Proof.
  split; intro H.
  - apply Qnot_lt_le. intro L. apply lt_true in L. congruence.
  - destruct (lt x y) eqn:E; [| reflexivity].
    apply lt_true in E. exfalso. eapply Qlt_not_le; eauto.
Qed.

Lemma ascending_le (i j : nat) : ascending a i j -> score a i <= score a j.
Proof.
  intros [H | [H _]].
  - apply Qlt_le_weak, H.
  - rewrite H. apply Qle_refl.
Qed.

Lemma insert_perm (i : nat) (l : list nat) :
  Permutation (insert a i l) (i :: l).
Proof.
  induction l as [| j rest IH]; simpl.
  - apply Permutation_refl.
  - destruct (lt (nth i a 0) (nth j a 0)).
    + apply Permutation_refl.
    + eapply perm_trans; [apply perm_skip, IH | apply perm_swap].
Qed.

Lemma insert_sorted (i : nat) (l : list nat) :
  StronglySorted (ascending a) l ->
  Forall (fun j => (j < i)%nat) l ->
  StronglySorted (ascending a) (insert a i l).
Proof.
  induction l as [| j rest IH]; simpl; intros HS B.
  - repeat constructor.
  - apply StronglySorted_inv in HS. destruct HS as [HS F].
    inversion B as [| ? ? Bj Brest]; subst.
    destruct (lt (nth i a 0) (nth j a 0)) eqn:E.
    + apply lt_true in E.
      constructor; [constructor; assumption |].
      constructor; [left; exact E |].
      rewrite Forall_forall in F |- *. intros r Hr.
      left. eapply Qlt_le_trans; [exact E |].
      apply ascending_le, F, Hr.
    + apply lt_false in E.
      constructor; [apply IH; assumption |].
      rewrite Forall_forall in F |- *. intros r Hr.
      apply (Permutation_in _ (insert_perm i rest)) in Hr.
      destruct Hr as [<- | Hr]; [| apply F, Hr].
      destruct (Qle_lt_or_eq _ _ E) as [L | L].
      * left. exact L.
      * right. split; assumption.
Qed.

Lemma fold_insert (n s : nat) (acc : list nat) :
  Permutation acc (seq 0 s) ->
  StronglySorted (ascending a) acc ->
  let r := fold_left (fun acc i => insert a i acc) (seq s n) acc in
  Permutation r (seq 0 (s + n)) /\ StronglySorted (ascending a) r.
Proof.
  revert s acc. induction n as [| n IH]; intros s acc P HS; simpl.
  - rewrite Nat.add_0_r. split; assumption.
  - replace (s + S n)%nat with (S s + n)%nat by lia.
    apply IH.
    + eapply perm_trans; [apply insert_perm |].
      rewrite seq_S. simpl.
      eapply perm_trans; [apply perm_skip, P |].
      apply Permutation_cons_append.
    + apply insert_sorted; [assumption |].
      rewrite Forall_forall. intros j Hj.
      apply (Permutation_in _ P) in Hj. apply in_seq in Hj. lia.
Qed.

(** The index sort lists every index once. *)
Lemma argsort1_perm : Permutation (argsort1 a) (seq 0 (length a)).
Proof.
  unfold argsort1.
  apply (fold_insert (length a) 0 (acc := [])); constructor.
Qed.

(** ... by rising score, equal scores in index order. *)
Lemma argsort1_sorted : StronglySorted (ascending a) (argsort1 a).
Proof.
  unfold argsort1.
  apply (fold_insert (length a) 0 (acc := [])); constructor.
Qed.

Lemma argsort1_length : length (argsort1 a) = length a.
Proof.
  rewrite (Permutation_length argsort1_perm). apply length_seq.
Qed.

End IndexSort.

Section SortedLists.

Variable A : Type.
Variable R : A -> A -> Prop.

Lemma sorted_app (l1 l2 : list A) :
  StronglySorted R (l1 ++ l2) ->
  StronglySorted R l1 /\ StronglySorted R l2
  /\ (forall x y, In x l1 -> In y l2 -> R x y).
Proof.
  induction l1 as [| x l1 IH]; simpl; intro HS.
  - repeat split; [constructor | assumption | intros ? ? []].
  - apply StronglySorted_inv in HS. destruct HS as [HS F].
    destruct (IH HS) as (S1 & S2 & C).
    rewrite Forall_forall in F.
    repeat split; [| assumption |].
    + constructor; [assumption |].
      rewrite Forall_forall. intros y Hy. apply F, in_or_app. now left.
    + intros u v [<- | Hu] Hv; [apply F, in_or_app; now right | now apply C].
Qed.

Lemma sorted_snoc (l : list A) (x : A) :
  StronglySorted R l -> (forall y, In y l -> R y x) ->
  StronglySorted R (l ++ [x]).
Proof.
  induction l as [| z l IH]; simpl; intros HS F.
  - repeat constructor.
  - apply StronglySorted_inv in HS. destruct HS as [HS G].
    constructor; [apply IH; auto |].
    rewrite Forall_forall in G |- *. intros y Hy.
    apply in_app_or in Hy. destruct Hy as [Hy | [<- | []]]; auto.
Qed.

Lemma sorted_skipn (n : nat) (l : list A) :
  StronglySorted R l -> StronglySorted R (skipn n l).
Proof.
  intro HS. rewrite <- (firstn_skipn n l) in HS.
  apply sorted_app in HS. tauto.
Qed.

End SortedLists.

Lemma sorted_rev (A : Type) (R : A -> A -> Prop) (l : list A) :
  StronglySorted R l -> StronglySorted (fun x y => R y x) (rev l).
Proof.
  induction l as [| x l IH]; simpl; intro HS.
  - constructor.
  - apply StronglySorted_inv in HS. destruct HS as [HS F].
    rewrite Forall_forall in F.
    apply sorted_snoc; [apply IH, HS |].
    intros y Hy. apply F. apply in_rev. exact Hy.
Qed.

(** ** Selection of the top k *)

Section TopK.

Import Numpy Store App Ranking Corpus.


Lemma decode_complete (D : nat) (rows : table) :
  complete D rows -> mapM decode_row rows = Ok (map document_of rows).
Proof.
  induction 1 as [| r rest (x & v & E & _) _ IH]; simpl; [reflexivity |].
  rewrite IH. unfold decode_row, document_of. rewrite E. reflexivity.
Qed.

Lemma present_complete (D : nat) (rows : table) :
  complete D rows ->
  present_embeddings (map document_of rows) = map vector_of rows.
Proof.
  induction 1 as [| r rest (x & v & E & _) _ IH]; simpl; [reflexivity |].
  unfold vector_of at 1. rewrite E, IH. reflexivity.
Qed.

Lemma lengths_complete (D : nat) (rows : table) :
  complete D rows ->
  forallb (fun r => (length r =? D)%nat) (map vector_of rows) = true.
Proof.
  induction 1 as [| r rest (x & v & E & L) _ IH]; simpl; [reflexivity |].
  rewrite IH. unfold vector_of. rewrite E, L, Nat.eqb_refl. reflexivity.
Qed.

(** Loading a store in which every row is embedded: [data] is the rows
    in order and row [i] of the matrix is the embedding of [data[i]]. *)
Lemma load_complete (D : nat) (rows : table) (g : Globals) :
  rows <> [] -> complete D rows ->
  load_data (Ok rows) g
  = mkGlobals (map document_of rows) (Some (Matrix (map vector_of rows))).
Proof.
  intros NE C. unfold load_data.
  rewrite (decode_complete C), (present_complete C).
  pose proof (lengths_complete C) as L.
  destruct rows as [| r rest]; [contradiction |].
  simpl in *. apply andb_prop in L. destruct L as [L0 L].
  apply Nat.eqb_eq in L0. rewrite L0. unfold array. rewrite L.
  reflexivity.
Qed.

Lemma mapM_index (A : Type) (l : list A) (idx : list nat) :
  Forall (fun i => (i < length l)%nat) idx ->
  exists out, mapM (index l) idx = Ok out
              /\ Forall2 (fun i d => nth_error l i = Some d) idx out.
Proof.
  induction 1 as [| i rest Hi _ (out & E & F)]; simpl.
  - exists []. split; [reflexivity | constructor].
  - unfold index at 1.
    destruct (nth_error l i) as [d |] eqn:N.
    + exists (d :: out). simpl. rewrite E. simpl.
      split; [reflexivity | constructor; assumption].
    + apply nth_error_None in N. lia.
Qed.


(** On a store in which every row is embedded, with at least one row:
    the query returns [min(5, N)] documents, the rows of the [k] highest
    scores, by falling score. *)
Lemma top_k_complete (rows : table) (q : vec) (g0 : Globals) :
  rows <> [] -> complete (length q) rows ->
  let g := load_data (Ok rows) g0 in
  let scores := scores_of rows q in
  exists idx docs,
    top_k_indices g q = Ok idx
    /\ top_k_data g q = Ok docs
    /\ length docs = Nat.min 5 (length rows)
    /\ Forall2 (fun i d => nth_error (map document_of rows) i = Some d)
               idx docs
    /\ NoDup idx
    /\ StronglySorted (descending scores) idx
    /\ (forall i j, In i idx -> (j < length rows)%nat -> ~ In j idx ->
                    descending scores i j).
Proof.
  intros NE C g scores. subst g. rewrite (load_complete g0 NE C).
  set (l := argsort1 scores).
  set (k := Nat.min 5 (length rows)).
  assert (Hl : length l = length rows).
  { unfold l. rewrite argsort1_length. unfold scores, scores_of.
    apply length_map. }
  assert (Hk : exists k', k = S k' /\ (k <= length rows)%nat).
  { destruct rows; [contradiction |]. unfold k. simpl length.
    destruct (Nat.min_spec 5 (S (length rows))) as [[H ->] | [H ->]];
      eexists; split; try reflexivity; lia. }
  destruct Hk as (k' & Ek & Lk).
  assert (E : top_k_indices
                (mkGlobals (map document_of rows)
                           (Some (Matrix (map vector_of rows)))) q
              = Ok (rev (skipn (length l - k) l))).
  { unfold top_k_indices, len_embeddings, dot. cbn [embeddings].
    rewrite (lengths_complete C). cbn [bind len argsort].
    rewrite length_map, map_map.
    fold (scores_of rows q). fold scores. fold l. fold k.
    rewrite Ek. reflexivity. }
  set (idx := rev (skipn (length l - k) l)) in *.
  assert (P : Permutation l (seq 0 (length rows))).
  { unfold l. replace (length rows) with (length scores).
    - apply argsort1_perm.
    - unfold scores, scores_of. apply length_map. }
  assert (In_l : forall i, In i idx -> In i l).
  { intros i Hi. unfold idx in Hi. apply in_rev in Hi.
    rewrite <- (firstn_skipn (length l - k) l). apply in_or_app. now right. }
  assert (B : Forall (fun i => (i < length (map document_of rows))%nat) idx).
  { rewrite Forall_forall. intros i Hi. rewrite length_map.
    apply In_l in Hi. apply (Permutation_in _ P) in Hi.
    apply in_seq in Hi. lia. }
  destruct (mapM_index _ B) as (docs & M & F).
  exists idx, docs. split; [exact E |].
  split; [unfold top_k_data; rewrite E; exact M |].
  pose proof (argsort1_sorted scores) as HS. fold l in HS.
  rewrite <- (firstn_skipn (length l - k) l) in HS.
  apply sorted_app in HS. destruct HS as (_ & HS2 & Cross).
  repeat split.
  - rewrite <- (Forall2_length F). unfold idx.
    rewrite length_rev, length_skipn. lia.
  - exact F.
  - unfold idx. apply NoDup_rev.
    assert (N : NoDup l).
    { apply (Permutation_NoDup (Permutation_sym P)), seq_NoDup. }
    rewrite <- (firstn_skipn (length l - k) l) in N.
    apply NoDup_app_remove_l in N. exact N.
  - unfold idx. apply sorted_rev. exact HS2.
  - intros i j Hi Hj Nj. unfold descending. apply Cross.
    + assert (Jl : In j l).
      { apply (Permutation_in _ (Permutation_sym P)), in_seq. lia. }
      rewrite <- (firstn_skipn (length l - k) l) in Jl.
      apply in_app_or in Jl. destruct Jl as [Jl | Jl]; [exact Jl |].
      exfalso. apply Nj. unfold idx. apply in_rev.
      rewrite rev_involutive. exact Jl.
    + unfold idx in Hi. apply in_rev in Hi. exact Hi.
Qed.

End TopK.

(** ** The query path *)

Section QueryPath.

Import Numpy Store Gateway App Ranking Corpus Examples Oracles.

(** C1: the specification has the returned documents be those whose
    embeddings produced the k highest scores, also when some stored
    document has no embedding.  On the store [gappy], whose first document
    has no embedding, the matrix has the single row of the second
    document, index 0 is selected, and [data[0]] is returned: the document
    without embedding, and its link, instead of the embedded one. *)
Theorem C1_selected_rows_index_the_unfiltered_list :
  let g := load_data (Ok gappy) initial in
  embeddings g = Some (Matrix [[1; 0]])
  /\ map (fun d => (id d, embedding d)) (data g)
     = [(1%Z, None); (2%Z, Some [1; 0])]
  /\ top_k_indices g [1; 0] = Ok [0%nat]
  /\ top_k_data g [1; 0] = Ok [loaded 1 "failed.md" None]
  /\ answer_question (embeds_as [1; 0]) (answers "ok") g
       (mkQuestionRequest "which file?" None)
     = Ok (mkAnswerResponse "ok" [link_of (loaded 1 "failed.md" None)]).
Proof.
  repeat split; reflexivity.
Qed.

Lemma unembedded_loads_empty (rows : table) (g : Globals) :
  unembedded rows ->
  embeddings (load_data (Ok rows) g) = Some Empty1D.
Proof.
  intro U. unfold load_data.
  assert (E : exists docs, mapM decode_row rows = Ok docs
                           /\ present_embeddings docs = []).
  { induction U as [| r rest Hr _ (docs & E & P)]; simpl.
    - exists []. split; reflexivity.
    - unfold decode_row at 1. rewrite Hr. simpl. rewrite E. simpl.
      eexists. split; [reflexivity | exact P]. }
  destruct E as (docs & -> & P). rewrite P. reflexivity.
Qed.

(** With no embedded document the product with a query vector of any
    dimension D >= 1 fails on the shapes. *)
Lemma unembedded_query_raises (rows : table) (x : Q) (q : vec) :
  unembedded rows ->
  top_k_data (load_data (Ok rows) initial) (x :: q) = Raise ValueError.
Proof.
  intro U. unfold top_k_data, top_k_indices.
  rewrite (unembedded_loads_empty initial U). reflexivity.
Qed.

(** C2: the specification has a query on a corpus with N = 0 return an
    empty result and no error.  On the empty store every request ends in
    the error
    response, whatever the gateways answer; and on a store whose
    only document has no embedding the retrieval raises for every query
    vector of dimension at least one. *)
Theorem C2_no_embedded_document_gives_an_error :
  (forall gw gen req,
      answer_question gw gen (load_data (Ok []) initial) req
      = Raise (HTTPException 500))
  /\ (forall x q,
         top_k_data (load_data (Ok [stored 1 "failed.md" Null]) initial)
                    (x :: q)
         = Raise ValueError).
Proof.
  split.
  - intros gw gen req. unfold answer_question, answer_body, get_embedding.
    destruct (gw (embedding_payload (question req))) as [[| x q] | e];
      reflexivity.
  - intros x q. apply unembedded_query_raises. repeat constructor.
Qed.

(** C5: the specification has a corpus of N embedded documents give
    [min(5, N)] results by falling dot product, with the three-document
    scenario as an instance.  The scenario comes out as stated: doc1,
    doc3, doc2, with scores 1, 7/10 and 0.  For N = 0 that is
    [min(5, 0) = 0] results, and the code raises instead; for N >= 1 see
    [top_k_complete]. *)
Theorem C5_scenario_ranked_and_empty_corpus_raises :
  top_k_data (load_data (Ok scenario) initial) [1; 0]
  = Ok [loaded 1 "doc1.md" (Some [1; 0]);
        loaded 3 "doc3.md" (Some [7#10; 7#10]);
        loaded 2 "doc2.md" (Some [0; 1])]
  /\ map Qred (scores_of scenario [1; 0]) = [1; 0; 7#10]
  /\ top_k_data (load_data (Ok []) initial) [1; 0] = Raise ValueError.
Proof.
  repeat split; reflexivity.
Qed.


(** With the matrix unset no request is answered. *)
Lemma unset_embeddings_error (gw : embedder) (gen : generator)
      (g : Globals) (req : QuestionRequest) :
  embeddings g = None ->
  answer_question gw gen g req = Raise (HTTPException 500).
Proof.
  intro N. unfold answer_question, answer_body, get_embedding.
  destruct (gw (embedding_payload (question req))) as [q | e];
    [| reflexivity].
  unfold top_k_data, top_k_indices. rewrite N. reflexivity.
Qed.



End QueryPath.

(** ** The selection under any sort *)

Section AnySort.

Import Numpy Store Gateway App Ranking Corpus Selection Examples Oracles.





(** With the insertion sort the general selection is the one of the
    model. *)
Lemma top_k_indices_by_argsort1 (g : Globals) (q : vec) :
  top_k_indices_by argsort1 g q = top_k_indices g q.
Proof.
  unfold top_k_indices_by, top_k_indices.
  destruct (dot (embeddings g) q) as [[x | v] | e]; reflexivity.
Qed.





End AnySort.

(** ** The embedding request *)

Section Truncation.

Import Gateway.





(** A text of 9000 units is sent as its first 8192. *)
Example long_text_is_cut :
  e_input (App.embedding_payload (Texts.filler 9000)) = Texts.filler 8192
  /\ e_input (ScrapeData.embedding_payload (Texts.filler 9000))
     = Texts.filler 8192.
Proof.
  split; vm_compute; reflexivity.
Qed.

End Truncation.

(** ** Persisting the fetched items *)

Section Persisting.

Import Numpy Store Gateway ScrapeData Ingestion Worlds.

Lemma fold_max_bounds (l : list Z) (a : Z) :
  (a <= fold_left Z.max l a)%Z
  /\ forall x, In x l -> (x <= fold_left Z.max l a)%Z.
Proof.
  revert a. induction l as [| y l IH]; intro a; simpl.
  - split; [lia | intros x []].
  - destruct (IH (Z.max a y)) as [B F]. split; [lia |].
    intros x [<- | Hx]; [lia | apply F, Hx].
Qed.

(** The id given to a new row is greater than every id in the table. *)
Lemma next_id_fresh (t : table) (r : Row) :
  In r t -> (r_id r < next_id t)%Z.
Proof.
  destruct t as [| r0 rest]; intros I; [destruct I |].
  unfold next_id.
  destruct (fold_max_bounds (map r_id rest) (r_id r0)) as [B F].
  destruct I as [<- | I]; [lia |].
  specialize (F (r_id r) (in_map r_id _ _ I)). lia.
Qed.

Lemma insert_keeps_ids_distinct (t : table) (item : RawDocument)
      (e : option vec) :
  NoDup (map r_id t) -> NoDup (map r_id (insert t item e)).
Proof.
  intro N. unfold insert. rewrite map_app. simpl.
  apply NoDup_rev in N. rewrite <- rev_involutive.
  apply NoDup_rev. rewrite rev_app_distr. simpl.
  constructor; [| exact N].
  rewrite <- in_rev. intro I. apply in_map_iff in I.
  destruct I as (r & E & I). apply next_id_fresh in I. lia.
Qed.

Lemma persisted_insert (gw : embedder) (t : table) (item : RawDocument) :
  persisted gw item
    (mkRow (next_id t) (source item) (content item) (url item) (title item)
           (encode (get_embedding gw (content item)))).
Proof.
  unfold persisted, get_embedding. simpl.
  repeat split; try reflexivity.
  - intros e ->. reflexivity.
  - intros x v ->. reflexivity.
Qed.

(** The loop of [main] appends one row per item, in order, and counts
    each of them. *)
Lemma store_all_appends (gw : embedder) (items : list RawDocument) :
  forall (t : table) (n : nat),
  exists rows,
    store_all gw items t n = (t ++ rows, (n + length items)%nat)
    /\ Forall2 (persisted gw) items rows
    /\ (NoDup (map r_id t) -> NoDup (map r_id (t ++ rows))).
Proof.
  induction items as [| item rest IH]; intros t n; simpl.
  - exists []. rewrite app_nil_r, Nat.add_0_r.
    repeat split; [constructor | auto].
  - destruct (IH (insert t item (get_embedding gw (content item))) (S n))
      as (rows & E & F & N).
    eexists (_ :: rows). rewrite E. unfold insert in *.
    rewrite <- app_assoc. simpl.
    split; [f_equal; lia |].
    split; [constructor; [apply persisted_insert | exact F] |].
    intro ND. rewrite <- app_assoc in N. apply N.
    apply (insert_keeps_ids_distinct t item
             (get_embedding gw (content item)) ND).
Qed.

Lemma count_rows_app (s u : string) (t rows : table) :
  count_rows s u (t ++ rows) = (count_rows s u t + count_rows s u rows)%nat.
Proof.
  unfold count_rows. rewrite filter_app, length_app. reflexivity.
Qed.

Lemma count_persisted (gw : embedder) (s u : string)
      (items : list RawDocument) (rows : table) :
  Forall2 (persisted gw) items rows ->
  count_rows s u rows = count_items s u items.
Proof.
  unfold count_rows, count_items.
  induction 1 as [| item r items rows (Es & _ & Eu & _) _ IH]; simpl;
    [reflexivity |].
  rewrite Es, Eu.
  destruct (String.eqb (source item) s && String.eqb (url item) u); simpl;
    rewrite IH; reflexivity.
Qed.

(** C6: the loop of [main] stores every fetched item, whatever the
    gateway did with it: for every sequence of items the table grows by
    one row per item, in order; the row of an item whose gateway call
    failed has no embedding, the row of an item whose call returned a
    vector holds that vector; no outcome stops the loop; and the count
    reported is the number of items.  [main] runs that loop on what the
    two fetchers returned. *)
Theorem C6_every_item_stored_and_counted
        (gw : embedder) (items : list RawDocument) (t : table) :
  (exists rows,
      store_all gw items t 0 = (t ++ rows, length items)
      /\ Forall2 (persisted gw) items rows)
  /\ (forall gh f, main gh f gw t = store_all gw (all_content gh f) t 0).
Proof.
  split.
  - destruct (store_all_appends gw items t 0) as (rows & E & F & _).
    exists rows. split; [exact E | exact F].
  - intros gh f. reflexivity.
Qed.

(** C4, as the code has it: a run keeps the rows of the store and
    appends one row per fetched item, each with a new id, so ids stay
    distinct; nothing is looked up by [(source, url)], and the number of
    rows with a given identity grows by the number of fetched items with
    that identity. *)
Theorem C4_rerun_appends_rows_with_new_ids
        (gh : GitHub) (f : Forum) (gw : embedder) (t : table) :
  NoDup (map r_id t) ->
  exists rows,
    fst (main gh f gw t) = t ++ rows
    /\ length rows = length (all_content gh f)
    /\ NoDup (map r_id (fst (main gh f gw t)))
    /\ forall s u,
         count_rows s u (fst (main gh f gw t))
         = (count_rows s u t + count_items s u (all_content gh f))%nat.
Proof.
  intro ND. unfold main. fold (all_content gh f).
  destruct (store_all_appends gw (all_content gh f) t 0)
    as (rows & E & F & N).
  exists rows. rewrite E. simpl.
  split; [reflexivity |].
  split; [symmetry; apply (Forall2_length F) |].
  split; [apply N, ND |].
  intros s u. rewrite count_rows_app, (count_persisted s u F). reflexivity.
Qed.

Lemma C4_rerun_appends_rows_with_new_ids_witness :
  exists rows,
    fst (main github_up forum_503 fails_on_readme after_first_run)
    = after_first_run ++ rows
    /\ length rows = length (all_content github_up forum_503)
    /\ NoDup (map r_id (fst (main github_up forum_503 fails_on_readme
                                  after_first_run)))
    /\ forall s u,
         count_rows s u (fst (main github_up forum_503 fails_on_readme
                                   after_first_run))
         = (count_rows s u after_first_run
            + count_items s u (all_content github_up forum_503))%nat.
Proof.
  apply (@C4_rerun_appends_rows_with_new_ids
           github_up forum_503 fails_on_readme after_first_run).
  simpl. constructor; [intros [] | constructor].
Defined.

(** C4 with a single row per identity fails: the store holds the readme,
    the run fetches it again, and the store then holds two rows with that
    [(source, url)], with ids 1 and 2. *)
Lemma C4_rerun_duplicates_the_document :
  count_rows "github" (f_html_url readme) after_first_run = 1%nat
  /\ count_rows "github" (f_html_url readme)
       (fst (main github_up forum_503 fails_on_readme after_first_run))
     = 2%nat
  /\ map r_id (fst (main github_up forum_503 fails_on_readme
                         after_first_run))
     = [1%Z; 2%Z].
Proof.
  repeat split; reflexivity.
Qed.

(** A run in which the gateway fails on the readme and embeds the forum
    post: both are stored, the first without embedding, and the run
    reports 2. *)
Example failed_embedding_is_stored_as_absent :
  main github_up forum_new_topic fails_on_readme []
  = ([mkRow 1 "github" "# Tools in Data Science" (f_html_url readme)
            "README.md" Null;
      mkRow 2 "discourse" "<p>reply</p>"
            "https://discourse.onlinedegree.iitm.ac.in/t/8/2" "Project 1"
            (Json [1; 0])],
     2%nat).
Proof.
  reflexivity.
Qed.

End Persisting.

(** ** The fetchers *)

Section Fetchers.

Import Numpy Store Gateway ScrapeData Ingestion Worlds.

Lemma attempt_unavailable (gh : GitHub) (attempt : nat) (rest : list nat) :
  unavailable (listing gh attempt) ->
  github_attempts gh (attempt :: rest)
  = (fst (github_attempts gh rest),
     (2 ^ Z.of_nat attempt)%Z :: snd (github_attempts gh rest)).
Proof.
  intros [body E]. simpl. rewrite E. simpl.
  destruct (github_attempts gh rest). reflexivity.
Qed.

Lemma attempt_lists (gh : GitHub) (attempt : nat) (rest : list nat)
      (docs : list RawDocument) :
  lists gh (listing gh attempt) docs ->
  github_attempts gh (attempt :: rest) = (docs, []).
Proof.
  intros (status & files & E & S & C). simpl. rewrite E, S. simpl.
  rewrite C. reflexivity.
Qed.

Lemma attempt_fails_for_good (gh : GitHub) (attempt : nat)
      (rest : list nat) :
  fails_for_good gh (listing gh attempt) ->
  github_attempts gh (attempt :: rest) = ([], []).
Proof.
  intros [(e & E) | [(status & body & E & S & N) | (status & body & e & E & S & C)]];
    simpl; rewrite E.
  - reflexivity.
  - rewrite S. apply Z.eqb_neq in N. rewrite N. reflexivity.
  - rewrite S, C. reflexivity.
Qed.

(** The attempts up to [n] answered 503: the run is attempt [n] with the
    sleeps 1, 2, ... before it. *)
Lemma attempts_after_503 (gh : GitHub) (n : nat) (rest : list nat) :
  forall s,
  (forall m, (s <= m < s + n)%nat -> unavailable (listing gh m)) ->
  github_attempts gh (seq s n ++ rest)
  = (fst (github_attempts gh rest),
     map (fun attempt => (2 ^ Z.of_nat attempt)%Z) (seq s n)
       ++ snd (github_attempts gh rest)).
Proof.
  induction n as [| n IH]; intros s H.
  - simpl. destruct (github_attempts gh rest). reflexivity.
  - cbn [seq app map]. rewrite attempt_unavailable by (apply H; lia).
    rewrite IH by (intros m Hm; apply H; lia). reflexivity.
Qed.

Lemma seq_split_at (n : nat) :
  (n < 3)%nat -> seq 0 3 = seq 0 n ++ n :: seq (S n) (2 - n).
Proof.
  intro L. destruct n as [| [| [| n]]]; try reflexivity. lia.
Qed.

Lemma keep_posts_spec (start stop : datetime) (t : Topic)
      (posts : list Post) :
  forall docs, keep_posts start stop t posts = Ok docs ->
  forall d, In d docs <->
            exists p stamp, In p posts /\ post_created_at p = Some stamp
                            /\ between start stamp stop = true
                            /\ d = post_document t p.
Proof.
  induction posts as [| p rest IH]; simpl; intros docs H d.
  - injection H as <-. split; [intros [] | intros (? & ? & [] & _)].
  - destruct (post_created_at p) as [stamp |] eqn:Ep; [| discriminate].
    simpl in H.
    destruct (keep_posts start stop t rest) as [more |]; [| discriminate].
    simpl in H. injection H as <-.
    specialize (IH more eq_refl d).
    destruct (between start stamp stop) eqn:B; split.
    + intros [<- | I].
      * exists p, stamp. auto.
      * apply IH in I. destruct I as (p' & s' & I & R).
        exists p', s'. split; [right; exact I | exact R].
    + intros (p' & s' & [<- | I] & Es & Bs & ->).
      * left. reflexivity.
      * right. apply IH. exists p', s'. auto.
    + intro I. apply IH in I. destruct I as (p' & s' & I & R).
      exists p', s'. split; [right; exact I | exact R].
    + intros (p' & s' & [<- | I] & Es & Bs & ->).
      * rewrite Ep in Es. injection Es as <-. congruence.
      * apply IH. exists p', s'. auto.
Qed.

Lemma topic_posts_spec (f : Forum) (start stop : datetime) (t : Topic) :
  forall docs, topic_posts f start stop t = Ok docs ->
  forall d, In d docs <-> yields f start stop [t] d.
Proof.
  unfold topic_posts, yields. intros docs H d.
  destruct (topic_created_at t) as [created |] eqn:Ec; [| discriminate].
  simpl in H.
  destruct (between start (midnight created) stop) eqn:B.
  - destruct (topic_page f (topic_id t)) as [status body | e] eqn:Et;
      [| discriminate].
    destruct (status =? 200)%Z eqn:Es.
    + apply Z.eqb_eq in Es. subst status.
      destruct body as [posts | e]; [| discriminate]. simpl in H.
      pose proof (keep_posts_spec start stop t posts H d) as K.
      split.
      * intro I. apply K in I. destruct I as (p & stamp & I & Ep & Bp & ->).
        exists t, created, posts, p, stamp. simpl. auto 10.
      * intros (t' & c' & posts' & p & stamp & [<- | []] & Ec' & _ & Et'
                & I & Ep & Bp & ->).
        rewrite Et in Et'. injection Et' as <-.
        apply K. exists p, stamp. auto.
    + injection H as <-. split; [intros [] |].
      intros (t' & c' & posts' & p & stamp & [<- | []] & _ & _ & Et' & _).
      rewrite Et in Et'. injection Et' as E200 _. subst status.
      discriminate.
  - injection H as <-. split; [intros [] |].
    intros (t' & c' & posts' & p & stamp & [<- | []] & Ec' & B' & _).
    rewrite Ec in Ec'. injection Ec' as <-. congruence.
Qed.

Lemma collect_posts_spec (f : Forum) (start stop : datetime)
      (ts : list Topic) :
  forall docs, collect_posts f start stop ts = Ok docs ->
  forall d, In d docs <-> yields f start stop ts d.
Proof.
  induction ts as [| t rest IH]; simpl; intros docs H d.
  - injection H as <-. split; [intros [] |].
    intros (? & ? & ? & ? & ? & [] & _).
  - destruct (topic_posts f start stop t) as [mine |] eqn:Em;
      [| discriminate].
    simpl in H.
    destruct (collect_posts f start stop rest) as [more |];
      [| discriminate].
    simpl in H. injection H as <-.
    specialize (IH more eq_refl d).
    pose proof (topic_posts_spec f start stop t Em d) as T.
    rewrite in_app_iff, IH, T. unfold yields. split.
    + intros [Y | Y]; destruct Y as (t' & c & ps & p & s & I & R).
      * destruct I as [<- | []]. exists t, c, ps, p, s. simpl. auto.
      * exists t', c, ps, p, s. simpl. auto.
    + intros (t' & c & ps & p & s & [<- | I] & R).
      * left. exists t, c, ps, p, s. simpl. auto.
      * right. exists t', c, ps, p, s. auto.
Qed.

(** C7, as the code has it: only the file-archive fetcher retries, and
    only when its contents request is answered 503.  It makes up to three
    attempts and sleeps 1, 2, 4 units after the 503 of the first, second,
    third: when the attempts before the n-th are answered 503 and the n-th
    gives the listing, the documents of that listing are returned; after
    three 503 the result is empty, without an exception.  Any other
    failure (no response, another error status, a listing or download
    that raises) ends the run at once with the empty result.  The forum
    fetcher has no retry loop: when its session check, its category
    listing or a category page fails (no response or an error status,
    503 included) the result is empty; a topic page answered with
    another status than 200, 503 included, is passed over and only the
    posts of that topic are missing. *)
Theorem C7_only_503_of_file_listing_is_retried
        (gh : GitHub) (f : Forum) (start stop : datetime) :
  (forall n docs, (n < 3)%nat ->
      (forall m, (m < n)%nat -> unavailable (listing gh m)) ->
      lists gh (listing gh n) docs ->
      scrape_github_log gh = (docs, backoff n))
  /\ ((forall m, (m < 3)%nat -> unavailable (listing gh m)) ->
      scrape_github_log gh = ([], [1; 2; 4]%Z))
  /\ (forall n, (n < 3)%nat ->
         (forall m, (m < n)%nat -> unavailable (listing gh m)) ->
         fails_for_good gh (listing gh n) ->
         scrape_github_log gh = ([], backoff n))
  /\ (unreachable f -> scrape_discourse f start stop = [])
  /\ (forall e, checked_json (categories f) = Raise e ->
         scrape_discourse f start stop = [])
  /\ (forall e, resolve_category f = Raise e ->
         scrape_discourse f start stop = [])
  /\ (forall cid e, resolve_category f = Ok (Some cid) ->
         checked_json (category_page f cid) = Raise e ->
         scrape_discourse f start stop = [])
  /\ (forall t created status body,
         topic_created_at t = Some created ->
         topic_page f (topic_id t) = Response status body ->
         status <> 200%Z ->
         topic_posts f start stop t = Ok []).
Proof.
  unfold scrape_github_log, backoff. repeat split.
  - intros n docs L U K. rewrite (seq_split_at L).
    rewrite attempts_after_503 by (intros m Hm; apply U; lia).
    rewrite (attempt_lists _ _ K). simpl. rewrite app_nil_r. reflexivity.
  - intro U. rewrite <- (app_nil_r (seq 0 3)).
    rewrite attempts_after_503 by (intros m Hm; apply U; lia).
    reflexivity.
  - intros n L U K. rewrite (seq_split_at L).
    rewrite attempts_after_503 by (intros m Hm; apply U; lia).
    rewrite (attempt_fails_for_good _ _ K). simpl. rewrite app_nil_r.
    reflexivity.
  - intros [e E]. unfold scrape_discourse, discourse_body, resolve_category.
    rewrite E. reflexivity.
  - intros e E. unfold scrape_discourse, discourse_body, resolve_category.
    rewrite E. destruct (checked_json (session_current f)); reflexivity.
  - intros e E. unfold scrape_discourse, discourse_body.
    rewrite E. reflexivity.
  - intros cid e R E. unfold scrape_discourse, discourse_body.
    rewrite R. simpl. rewrite E. reflexivity.
  - intros t created status body Ec Et Ns. unfold topic_posts.
    rewrite Ec. simpl. rewrite Et.
    apply Z.eqb_neq in Ns. rewrite Ns.
    destruct (between start (midnight created) stop); reflexivity.
Qed.

Lemma C7_only_503_of_file_listing_is_retried_witness :
  scrape_github_log (twice_then_listing 503)
  = ([readme_document], [1; 2]%Z).
Proof.
  destruct (C7_only_503_of_file_listing_is_retried
              (twice_then_listing 503) forum_503 start_date end_date)
    as (W & _).
  apply (W 2%nat [readme_document]).
  - lia.
  - intros [| [| m]] Hm; [eexists; reflexivity | eexists; reflexivity | lia].
  - exists 200%Z, [readme]. repeat split; reflexivity.
Defined.

(** A topic page answered 503 is passed over: the post of the other
    topic is returned. *)
Example topic_page_503_is_passed_over :
  scrape_discourse MoreWorlds.forum_page_503 start_date end_date
  = [post_document new_topic reply].
Proof.
  reflexivity.
Qed.

(** C7 for every fetcher and every transient failure fails: a contents
    request answered 429 (rate limiting) twice and with the listing at
    the third attempt is given up at the
    first answer, with no sleep, although the third attempt alone returns
    the readme; and the forum fetcher returns the empty result on a 503
    of its first request. *)
Lemma C7_rate_limited_listing_is_not_retried :
  scrape_github_log (twice_then_listing 429) = ([], [])
  /\ github_attempts (twice_then_listing 429) [2%nat]
     = ([readme_document], [])
  /\ scrape_discourse forum_503 start_date end_date = [].
Proof.
  repeat split; reflexivity.
Qed.

Lemma before_start_excluded (start stamp stop : datetime) :
  (day stamp < day start)%Z -> between start stamp stop = false.
Proof.
  intro L. unfold between, dt_le.
  destruct (Z.ltb_spec (day start) (day stamp)); [lia |].
  destruct (Z.eqb_spec (day start) (day stamp)); [lia |].
  reflexivity.
Qed.

Lemma from_start_included (start stamp stop : datetime) :
  day stamp = day start -> (usec start <= usec stamp)%Z ->
  dt_le stamp stop = true -> between start stamp stop = true.
Proof.
  intros D U S. unfold between. rewrite S, andb_true_r. unfold dt_le.
  rewrite D, Z.eqb_refl. apply Z.leb_le in U. rewrite U.
  apply orb_true_r.
Qed.

(** C8, as the code has it: once the category page is read, the forum
    fetcher yields a post exactly when three tests pass: the creation day
    of its topic, taken at midnight, lies in [start, stop]; the page of
    the topic is answered with status 200; and the creation timestamp of
    the post lies in [start, stop], bounds included.  A post created on a
    day before the start is never yielded; a post created on the start
    day, not before the start, and not after the stop passes the post
    test.  The filter runs while the list is built; if a request or a
    timestamp raises on the way, nothing is yielded. *)
Theorem C8_post_yielded_iff_topic_and_post_in_window
        (f : Forum) (start stop : datetime) (cid : Z) (page : CategoryPage) :
  resolve_category f = Ok (Some cid) ->
  checked_json (category_page f cid) = Ok page ->
  (forall d, In d (scrape_discourse f start stop) ->
             yields f start stop (topics page) d)
  /\ (forall docs, collect_posts f start stop (topics page) = Ok docs ->
         scrape_discourse f start stop = docs
         /\ forall d, In d docs <-> yields f start stop (topics page) d)
  /\ (forall e, collect_posts f start stop (topics page) = Raise e ->
         scrape_discourse f start stop = [])
  /\ (forall stamp, (day stamp < day start)%Z ->
         between start stamp stop = false)
  /\ (forall stamp, day stamp = day start -> (usec start <= usec stamp)%Z ->
         dt_le stamp stop = true -> between start stamp stop = true).
Proof.
  intros R P.
  assert (E : scrape_discourse f start stop
              = match collect_posts f start stop (topics page) with
                | Ok posts => posts
                | Raise _ => []
                end).
  { unfold scrape_discourse, discourse_body. rewrite R. simpl.
    rewrite P. reflexivity. }
  rewrite E.
  split; [| split; [| split; [| split]]].
  - intros d I.
    destruct (collect_posts f start stop (topics page)) as [docs |] eqn:C;
      [| destruct I].
    apply (collect_posts_spec f start stop (topics page) C d). exact I.
  - intros docs C. rewrite C. split; [reflexivity |].
    apply (collect_posts_spec f start stop (topics page) C).
  - intros e C. rewrite C. reflexivity.
  - intros stamp. apply before_start_excluded.
  - intros stamp. apply from_start_included.
Qed.

Lemma C8_post_yielded_iff_topic_and_post_in_window_witness :
  scrape_discourse forum_new_topic start_date end_date
  = [post_document new_topic reply]
  /\ forall d, In d [post_document new_topic reply]
               <-> yields forum_new_topic start_date end_date [new_topic] d.
Proof.
  destruct (@C8_post_yielded_iff_topic_and_post_in_window
              forum_new_topic start_date end_date 34%Z
              (mkCategoryPage [] [new_topic]) eq_refl eq_refl)
    as (_ & W & _).
  apply (W [post_document new_topic reply]). reflexivity.
Defined.

(** C8 with the post timestamp as the only test fails: the reply was
    created inside the window, on its first day, and is not yielded,
    because its topic was opened the day before; the run itself completes
    without an exception. *)
Lemma C8_reply_in_window_dropped_with_its_topic :
  between start_date first_morning end_date = true
  /\ post_created_at reply = Some first_morning
  /\ topic_page forum_old_topic (topic_id old_topic)
     = Response 200 (Ok [reply])
  /\ discourse_body forum_old_topic start_date end_date = Ok []
  /\ scrape_discourse forum_old_topic start_date end_date = [].
Proof.
  repeat split; reflexivity.
Qed.

End Fetchers.

(** ** More on loading and querying *)

Section Loading.

Import Numpy Store Gateway App Ranking Corpus Retrieval Examples Oracles.

Lemma decode_readable (rows : table) :
  readable rows -> mapM decode_row rows = Ok (map document_of rows).
Proof.
  induction 1 as [| r rest Hr _ IH]; simpl; [reflexivity |].
  rewrite IH. unfold decode_row, document_of.
  destruct (r_embedding r); try reflexivity. contradiction.
Qed.

Lemma uniform_readable (D : nat) (rows : table) :
  uniform D rows -> readable rows.
Proof.
  induction 1 as [| r rest Hr _ IH]; constructor; [| exact IH].
  intro E. rewrite E in Hr. exact Hr.
Qed.

Lemma present_uniform (D : nat) (rows : table) :
  uniform D rows ->
  Forall (fun v => length v = D) (present_embeddings (map document_of rows)).
Proof.
  induction 1 as [| r rest Hr _ IH]; simpl; [constructor |].
  destruct (r_embedding r) as [| [| x v] |]; simpl; try exact IH.
  constructor; [exact Hr | exact IH].
Qed.

Lemma forallb_lengths (D : nat) (m : list vec) :
  Forall (fun v => length v = D) m ->
  forallb (fun r => (length r =? D)%nat) m = true.
Proof.
  induction 1 as [| v m Hv _ IH]; simpl; [reflexivity |].
  rewrite Hv, Nat.eqb_refl. exact IH.
Qed.

Lemma array_uniform (D : nat) (m : list vec) :
  m <> [] -> Forall (fun v => length v = D) m -> array m = Ok (Matrix m).
Proof.
  intros NE F. destruct m as [| r rest]; [contradiction |].
  inversion F as [| ? ? Hr Hrest]; subst. unfold array.
  rewrite (forallb_lengths Hrest). reflexivity.
Qed.

Lemma present_le (docs : list Document) :
  (length (present_embeddings docs) <= length docs)%nat.
Proof.
  induction docs as [| d rest IH]; simpl; [lia |].
  destruct (embedding d) as [[| x v] |]; simpl; lia.
Qed.

(** The selection on a matrix whose rows have the dimension of the
    query. *)
Lemma top_k_matrix (docs : list Document) (m : list vec) (q : vec) :
  m <> [] -> Forall (fun v => length v = length q) m ->
  exists idx,
    top_k_indices (mkGlobals docs (Some (Matrix m))) q = Ok idx
    /\ length idx = Nat.min 5 (length m)
    /\ Forall (fun i => (i < length m)%nat) idx.
Proof.
  intros NE F.
  set (scores := map (fun r => inner r q) m).
  set (l := argsort1 scores).
  set (k := Nat.min 5 (length m)).
  assert (Hs : length scores = length m) by apply length_map.
  assert (Hl : length l = length m).
  { unfold l. rewrite argsort1_length. exact Hs. }
  assert (Hk : exists k', k = S k' /\ (k <= length m)%nat).
  { destruct m; [contradiction |]. unfold k. simpl length.
    destruct (Nat.min_spec 5 (S (length m))) as [[H ->] | [H ->]];
      eexists; split; try reflexivity; lia. }
  destruct Hk as (k' & Ek & Lk).
  exists (rev (skipn (length l - k) l)). repeat split.
  - unfold top_k_indices, len_embeddings, dot. cbn [embeddings].
    rewrite (forallb_lengths F). cbn [bind len argsort].
    fold scores. fold l. fold k. rewrite Ek. reflexivity.
  - rewrite length_rev, length_skipn. lia.
  - rewrite Forall_forall. intros i Hi. apply in_rev in Hi.
    assert (Il : In i l).
    { rewrite <- (firstn_skipn (length l - k) l). apply in_or_app.
      now right. }
    unfold l in Il.
    apply (Permutation_in _ (argsort1_perm scores)) in Il.
    apply in_seq in Il. lia.
Qed.

Lemma forall2_in_right (A B : Type) (P : A -> B -> Prop)
      (l : list A) (l' : list B) :
  Forall2 P l l' -> forall y, In y l' -> exists x, In x l /\ P x y.
Proof.
  induction 1 as [| x y l l' Hxy _ IH]; intros z Hz; [destruct Hz |].
  destruct Hz as [<- | Hz].
  - exists x. split; [now left | exact Hxy].
  - destruct (IH z Hz) as (x' & I & Px). exists x'. split; [now right | exact Px].
Qed.

Lemma forall2_in_left (A B : Type) (P : A -> B -> Prop)
      (l : list A) (l' : list B) :
  Forall2 P l l' -> forall x, In x l -> exists y, In y l' /\ P x y.
Proof.
  induction 1 as [| x y l l' Hxy _ IH]; intros z Hz; [destruct Hz |].
  destruct Hz as [<- | Hz].
  - exists y. split; [now left | exact Hxy].
  - destruct (IH z Hz) as (y' & I & Py). exists y'. split; [now right | exact Py].
Qed.

Lemma forall2_sorted (A B : Type) (P : A -> B -> Prop)
      (R : A -> A -> Prop) (R' : B -> B -> Prop)
      (l : list A) (l' : list B) :
  (forall x x' y y', P x y -> P x' y' -> R x x' -> R' y y') ->
  Forall2 P l l' -> StronglySorted R l -> StronglySorted R' l'.
Proof.
  intros T. induction 1 as [| x y l l' Hxy F IH]; intro HS; [constructor |].
  apply StronglySorted_inv in HS. destruct HS as [HS G].
  constructor; [apply IH, HS |].
  rewrite Forall_forall in G |- *. intros y' Hy'.
  destruct (forall2_in_right F y' Hy') as (x' & Ix & Px).
  apply (T x x' y y' Hxy Px). apply G, Ix.
Qed.

Lemma similarity_is_score (rows : table) (q : vec) (i : nat) (d : Document) :
  nth_error (map document_of rows) i = Some d ->
  similarity q d = score (scores_of rows q) i.
Proof.
  intro H. unfold score, scores_of.
  rewrite nth_error_map in H.
  destruct (nth_error rows i) as [r |] eqn:E; [| discriminate].
  simpl in H. injection H as <-.
  rewrite (nth_error_nth _ _ 0 (map_nth_error _ _ _ E)).
  unfold similarity, document_of, vector_of. simpl.
  destruct (r_embedding r); reflexivity.
Qed.

(** X1: on a store with at least one row, every row embedded at the
    dimension of the query: the query returns [min(5, N)] loaded
    documents, listed by falling score of their own embedding, and no
    stored document left out scores higher than a returned one. *)
Theorem complete_corpus_returns_best_documents (rows : table) (q : vec) :
  rows <> [] -> complete (length q) rows ->
  exists docs,
    top_k_data (load_data (Ok rows) initial) q = Ok docs
    /\ length docs = Nat.min 5 (length rows)
    /\ (forall d, In d docs -> In d (map document_of rows))
    /\ StronglySorted (fun d d' => similarity q d' <= similarity q d) docs
    /\ (forall r d, In r rows -> ~ In (document_of r) docs -> In d docs ->
                    similarity q (document_of r) <= similarity q d).
Proof.
  intros NE C.
  destruct (top_k_complete q initial NE C)
    as (idx & docs & _ & T & L & F & _ & HS & Top).
  exists docs. split; [exact T |]. split; [exact L |].
  split; [| split].
  - intros d Hd. destruct (forall2_in_right F d Hd) as (i & _ & Hi).
    eapply nth_error_In, Hi.
  - eapply forall2_sorted; [| exact F | exact HS].
    intros i j d d' Hi Hj O.
    rewrite (similarity_is_score rows q i Hi).
    rewrite (similarity_is_score rows q j Hj).
    apply (ascending_le O).
  - intros r d Hr Nr Hd.
    destruct (In_nth_error _ _ Hr) as (j & Hj).
    assert (Dj : nth_error (map document_of rows) j = Some (document_of r)).
    { apply map_nth_error, Hj. }
    destruct (forall2_in_right F d Hd) as (i & Ii & Hi).
    rewrite (similarity_is_score rows q j Dj).
    rewrite (similarity_is_score rows q i Hi).
    apply (@ascending_le (scores_of rows q) j i). apply (Top i j Ii).
    + apply nth_error_Some. rewrite Hj. discriminate.
    + intro Ij. apply Nr.
      destruct (forall2_in_left F j Ij) as (d' & Id' & Hd').
      rewrite Dj in Hd'. injection Hd' as <-. exact Id'.
Qed.

Lemma complete_corpus_returns_best_documents_witness :
  exists docs,
    top_k_data (load_data (Ok scenario) initial) [1; 0] = Ok docs
    /\ length docs = Nat.min 5 (length scenario)
    /\ (forall d, In d docs -> In d (map document_of scenario))
    /\ StronglySorted
         (fun d d' => similarity [1; 0] d' <= similarity [1; 0] d) docs
    /\ (forall r d, In r scenario -> ~ In (document_of r) docs ->
                    In d docs ->
                    similarity [1; 0] (document_of r) <= similarity [1; 0] d).
Proof.
  apply (@complete_corpus_returns_best_documents scenario [1; 0]).
  - discriminate.
  - repeat constructor; eexists; eexists; split; reflexivity.
Defined.

(** X2: on a store whose rows decode, whose present embeddings have the
    dimension of the query, and which holds at least one of them (rows
    without embedding may lie between): the query returns exactly
    [min(5, N)] documents, N the number of embedded rows, and each of them
    is a loaded document; the index into [data] is never out of range. *)
Theorem query_returns_min_5_N_documents (rows : table) (q : vec) :
  uniform (length q) rows -> (0 < embedded_count rows)%nat ->
  exists docs,
    top_k_data (load_data (Ok rows) initial) q = Ok docs
    /\ length docs = Nat.min 5 (embedded_count rows)
    /\ (embedded_count rows <= length rows)%nat
    /\ forall d, In d docs -> In d (data (load_data (Ok rows) initial)).
Proof.
  intros U N. unfold embedded_count in *.
  set (m := present_embeddings (map document_of rows)) in *.
  assert (NE : m <> []) by (destruct m; [simpl in N; lia | discriminate]).
  pose proof (present_uniform U) as F. fold m in F.
  assert (E : load_data (Ok rows) initial
              = mkGlobals (map document_of rows) (Some (Matrix m))).
  { unfold load_data. rewrite (decode_readable (uniform_readable U)).
    fold m. rewrite (array_uniform NE F). reflexivity. }
  rewrite E.
  destruct (top_k_matrix (map document_of rows) q NE F) as (idx & T & L & B).
  pose proof (present_le (map document_of rows)) as Le. fold m in Le.
  assert (B' : Forall (fun i => (i < length (map document_of rows))%nat) idx).
  { rewrite Forall_forall in B |- *. intros i Hi. specialize (B i Hi). lia. }
  destruct (mapM_index _ B') as (docs & M & F2).
  exists docs. unfold top_k_data. rewrite T. simpl.
  split; [exact M |].
  split; [rewrite <- (Forall2_length F2); exact L |].
  split; [rewrite length_map in Le; exact Le |].
  intros d Hd. destruct (forall2_in_right F2 d Hd) as (i & _ & Hi).
  eapply nth_error_In, Hi.
Qed.

Lemma query_returns_min_5_N_documents_witness :
  exists docs,
    top_k_data (load_data (Ok gappy) initial) [1; 0] = Ok docs
    /\ length docs = Nat.min 5 (embedded_count gappy)
    /\ (embedded_count gappy <= length gappy)%nat
    /\ forall d, In d docs -> In d (data (load_data (Ok gappy) initial)).
Proof.
  apply (@query_returns_min_5_N_documents gappy [1; 0]).
  - repeat constructor.
  - unfold embedded_count. simpl. lia.
Defined.

(** X3: a query vector whose dimension differs from that of the stored
    embeddings: the product fails on the shapes, and the request is
    answered by the error response. *)
Theorem query_of_other_dimension_is_an_error
        (D : nat) (rows : table) (q : vec)
        (gw : embedder) (gen : generator) (req : QuestionRequest) :
  rows <> [] -> complete D rows -> length q <> D ->
  top_k_data (load_data (Ok rows) initial) q = Raise ValueError
  /\ (gw (embedding_payload (question req)) = Ok q ->
      answer_question gw gen (load_data (Ok rows) initial) req
      = Raise (HTTPException 500)).
Proof.
  intros NE C Ne. rewrite (load_complete initial NE C).
  assert (T : top_k_data (mkGlobals (map document_of rows)
                                    (Some (Matrix (map vector_of rows)))) q
              = Raise ValueError).
  { unfold top_k_data, top_k_indices, dot. cbn [embeddings].
    destruct rows as [| r rest]; [contradiction |].
    destruct (Forall_inv C) as (x & v & E & L).
    cbn [map forallb]. unfold vector_of at 1. rewrite E, L.
    destruct (Nat.eqb_spec D (length q)) as [Eq | _]; [congruence |].
    reflexivity. }
  split; [exact T |].
  intro G. unfold answer_question, answer_body, get_embedding.
  rewrite G. simpl. rewrite T. reflexivity.
Qed.

Lemma query_of_other_dimension_is_an_error_witness :
  top_k_data (load_data (Ok scenario) initial) [1; 0; 0] = Raise ValueError.
Proof.
  apply (@query_of_other_dimension_is_an_error
           2 scenario [1; 0; 0] (embeds_as [1; 0; 0]) (answers "ok")
           (mkQuestionRequest "q" None)).
  - discriminate.
  - repeat constructor; eexists; eexists; split; reflexivity.
  - simpl. lia.
Defined.

Lemma array_ragged (m : list vec) (v1 v2 : vec) :
  In v1 m -> In v2 m -> length v1 <> length v2 ->
  array m = Raise ValueError.
Proof.
  intros I1 I2 Ne. destruct m as [| r rest]; [destruct I1 |].
  unfold array.
  destruct (forallb (fun r' => (length r' =? length r)%nat) rest) eqn:A;
    [| reflexivity].
  exfalso. rewrite forallb_forall in A.
  assert (H : forall v, In v (r :: rest) -> length v = length r).
  { intros v [<- | Hv]; [reflexivity |]. apply Nat.eqb_eq, A, Hv. }
  apply Ne. rewrite (H v1 I1), (H v2 I2). reflexivity.
Qed.

Lemma in_present (rows : table) (r : Row) (x : Q) (v : vec) :
  In r rows -> r_embedding r = Json (x :: v) ->
  In (x :: v) (present_embeddings (map document_of rows)).
Proof.
  intros I E. induction rows as [| r0 rest IH]; [destruct I |].
  simpl. destruct I as [-> | I].
  - rewrite E. now left.
  - destruct (r_embedding r0) as [| [| x0 v0] |]; auto. right. auto.
Qed.

(** X4: a store holding embeddings of two different dimensions: the rows
    are loaded into [data], building the matrix fails, the exception is
    swallowed and the matrix stays unset; every request is then answered
    by the error response. *)
Theorem store_of_mixed_dimensions_answers_errors (rows : table) :
  readable rows -> ragged rows ->
  load_data (Ok rows) initial = mkGlobals (map document_of rows) None
  /\ forall gw gen req,
       answer_question gw gen (load_data (Ok rows) initial) req
       = Raise (HTTPException 500).
Proof.
  intros R (r1 & r2 & x1 & v1 & x2 & v2 & I1 & I2 & E1 & E2 & Ne).
  assert (E : load_data (Ok rows) initial
              = mkGlobals (map document_of rows) None).
  { unfold load_data. rewrite (decode_readable R).
    rewrite (@array_ragged _ (x1 :: v1) (x2 :: v2)).
    - reflexivity.
    - apply (in_present rows r1 I1 E1).
    - apply (in_present rows r2 I2 E2).
    - simpl. lia. }
  split; [exact E |].
  intros gw gen req. rewrite E. apply unset_embeddings_error. reflexivity.
Qed.

Lemma store_of_mixed_dimensions_answers_errors_witness :
  load_data (Ok [stored 1 "a.md" (Json [1; 0]);
                 stored 2 "b.md" (Json [1; 0; 0])]) initial
  = mkGlobals (map document_of [stored 1 "a.md" (Json [1; 0]);
                                stored 2 "b.md" (Json [1; 0; 0])]) None.
Proof.
  apply (@store_of_mixed_dimensions_answers_errors
           [stored 1 "a.md" (Json [1; 0]);
            stored 2 "b.md" (Json [1; 0; 0])]).
  - repeat constructor; discriminate.
  - exists (stored 1 "a.md" (Json [1; 0])),
           (stored 2 "b.md" (Json [1; 0; 0])), 1, [0], 1, [0; 0].
    repeat split; simpl; auto.
Defined.

Lemma mapM_ok (A B : Type) (f : A -> result B) (l : list A) :
  forall out, mapM f l = Ok out -> Forall2 (fun x y => f x = Ok y) l out.
Proof.
  induction l as [| x l IH]; simpl; intros out H.
  - injection H as <-. constructor.
  - destruct (f x) as [y |] eqn:Fx; [| discriminate]. simpl in H.
    destruct (mapM f l) as [ys |]; [| discriminate]. simpl in H.
    injection H as <-. constructor; [exact Fx | apply IH; reflexivity].
Qed.

Lemma slice_last_bound (k n : nat) (l : list nat) :
  (0 < k)%nat -> length l = n ->
  (length (slice_last (Nat.min k n) l) <= k)%nat.
Proof.
  intros K L. destruct (Nat.min k n) as [| m] eqn:E; simpl.
  - lia.
  - rewrite length_skipn. lia.
Qed.

Lemma top_k_indices_bound (g : Globals) (q : vec) (idx : list nat) :
  top_k_indices g q = Ok idx -> (length idx <= 5)%nat.
Proof.
  unfold top_k_indices, len_embeddings, dot.
  destruct (embeddings g) as [[| rows] |]; [| | discriminate].
  - destruct q; [| discriminate]. simpl. intro H. injection H as <-.
    simpl. lia.
  - destruct (forallb (fun r => (length r =? length q)%nat) rows);
      [| discriminate].
    cbn [bind len argsort].
    intro H. injection H as <-. rewrite length_rev.
    apply (@slice_last_bound 5 (length rows)); [lia |].
    rewrite argsort1_length. apply length_map.
Qed.

(** X5: whatever the globals and the gateways: a request either gets the
    error response with status 500, or a response whose answer is the
    text of the chat gateway for the context made of the selected
    documents, and whose links are those documents, in the same order:
    at most five, each of a document of [data]. *)
Theorem answer_is_error_500_or_at_most_five_links
        (gw : embedder) (gen : generator) (g : Globals)
        (req : QuestionRequest) :
  match answer_question gw gen g req with
  | Raise e => e = HTTPException 500
  | Ok resp =>
      exists q top,
        gw (embedding_payload (question req)) = Ok q
        /\ top_k_data g q = Ok top
        /\ gen (chat_payload (join nl (map content top)) req)
           = Ok (answer resp)
        /\ links resp = map link_of top
        /\ (length (links resp) <= 5)%nat
        /\ forall d, In d top -> In d (data g)
  end.
Proof.
  unfold answer_question, answer_body, get_embedding.
  destruct (gw (embedding_payload (question req))) as [q | e];
    [| reflexivity].
  simpl. destruct (top_k_data g q) as [top | e] eqn:T; [| reflexivity].
  simpl.
  destruct (gen (chat_payload (join nl (map content top)) req))
    as [ans | e] eqn:G; [| reflexivity].
  simpl. exists q, top. repeat split; try assumption.
  - unfold top_k_data in T.
    destruct (top_k_indices g q) as [idx |] eqn:I; [| discriminate].
    simpl in T. apply mapM_ok in T.
    rewrite length_map, <- (Forall2_length T).
    apply (top_k_indices_bound g q I).
  - intros d Hd. unfold top_k_data in T.
    destruct (top_k_indices g q) as [idx |] eqn:I; [| discriminate].
    simpl in T. apply mapM_ok in T.
    destruct (forall2_in_right T d Hd) as (i & _ & Hi).
    unfold index in Hi.
    destruct (nth_error (data g) i) eqn:N; [| discriminate].
    injection Hi as <-. eapply nth_error_In, N.
Qed.

End Loading.

(** ** From ingestion to the query service *)

Section RoundTrip.

Import Numpy Store Gateway ScrapeData Ingestion Pipeline Corpus Retrieval
       Worlds Oracles.

Lemma next_id_insert (t : table) (item : RawDocument) (e : option vec) :
  next_id (insert t item e) = (next_id t + 1)%Z.
Proof.
  destruct t as [| r rest]; [reflexivity |].
  unfold insert. simpl app. unfold next_id at 1.
  rewrite map_app, fold_left_app. simpl. unfold next_id. lia.
Qed.

Lemma ids_from_step (first : Z) (n : nat) :
  ids_from first (S n) = first :: ids_from (first + 1) n.
Proof.
  unfold ids_from. simpl. f_equal; [lia |].
  rewrite <- seq_shift, map_map. apply map_ext. intro i. lia.
Qed.

(** The loop of [main], row by row. *)
Lemma store_all_exact (gw : embedder) (items : list RawDocument) :
  forall (t : table) (n : nat),
  exists rows,
    store_all gw items t n = (t ++ rows, (n + length items)%nat)
    /\ Forall2 (written gw) items rows
    /\ map r_id rows = ids_from (next_id t) (length items).
Proof.
  induction items as [| item rest IH]; intros t n; simpl.
  - exists []. rewrite app_nil_r, Nat.add_0_r.
    repeat split. constructor.
  - destruct (IH (insert t item (get_embedding gw (content item))) (S n))
      as (rows & E & F & I).
    eexists (_ :: rows). rewrite E. unfold insert at 1.
    rewrite <- app_assoc. simpl.
    split; [f_equal; lia |].
    split; [constructor; [repeat split | exact F] |].
    rewrite ids_from_step, I, next_id_insert. reflexivity.
Qed.

Lemma written_loads (gw : embedder) (item : RawDocument) (r : Row) :
  written gw item r ->
  r_embedding r <> Garbled /\ loaded_as gw item (document_of r).
Proof.
  intros (Es & Ec & Eu & Et & Ee). unfold get_embedding, encode in Ee.
  split.
  - rewrite Ee.
    destruct (gw (embedding_payload (content item))) as [[| x v] | e];
      discriminate.
  - unfold loaded_as, document_of. simpl. rewrite Ee.
    repeat split; try assumption.
    destruct (gw (embedding_payload (content item))) as [[| x v] | e];
      reflexivity.
Qed.

Lemma ids_from_one (n : nat) :
  ids_from 1 n = map Z.of_nat (seq 1 n).
Proof.
  unfold ids_from. rewrite <- seq_shift, map_map. apply map_ext.
  intro i. lia.
Qed.

(** Whatever becomes of the matrix, [data] holds every row of a store
    that decodes, in order. *)
Lemma load_data_data (rows : table) (g : App.Globals) :
  readable rows -> App.data (App.load_data (Ok rows) g) = map document_of rows.
Proof.
  intro R. unfold App.load_data. rewrite (decode_readable R).
  destruct (array _); reflexivity.
Qed.

Lemma written_all_load (gw : embedder) (items : list RawDocument)
      (rows : table) :
  Forall2 (written gw) items rows ->
  readable rows /\ Forall2 (loaded_as gw) items (map document_of rows).
Proof.
  induction 1 as [| item r items rows W _ (R & L)]; simpl.
  - split; constructor.
  - destruct (written_loads W) as [Ng La].
    split; constructor; assumption.
Qed.

(** X7: what the ingestion writes into a new store the query service reads
    back: one document per fetched item, in fetch order, with the texts of
    the item, the ids 1, 2, ..., n, and as embedding the vector the
    gateway returned for the item, absent when the call failed. *)
Theorem ingested_store_loads_back
        (gw : embedder) (items : list RawDocument) :
  let t := fst (store_all gw items [] 0) in
  let g := App.load_data (Ok t) App.initial in
  Forall2 (loaded_as gw) items (App.data g)
  /\ map App.id (App.data g) = map Z.of_nat (seq 1 (length items)).
Proof.
  intros t g. subst g t.
  destruct (store_all_exact gw items [] 0) as (rows & E & F & I).
  rewrite E. simpl fst.
  destruct (written_all_load F) as [R L].
  rewrite (load_data_data App.initial R).
  split; [exact L |].
  rewrite map_map. simpl. change (fun x => r_id x) with r_id.
  rewrite I. apply ids_from_one.
Qed.

(** X8: a run into a new store in which the gateway embeds every fetched
    item at dimension D, then startup of the service, then a query vector
    of dimension D: the query returns [min(5, n)] documents, n the number
    of fetched items, and every returned document is one of the fetched
    items. *)
Theorem query_after_ingestion_returns_fetched_items
        (gw : embedder) (items : list RawDocument) (q : vec) :
  items <> [] -> Forall (embeds_at gw (length q)) items ->
  let t := fst (store_all gw items [] 0) in
  exists docs,
    App.top_k_data (App.load_data (Ok t) App.initial) q = Ok docs
    /\ length docs = Nat.min 5 (length items)
    /\ forall d, In d docs -> exists item, In item items /\ loaded_as gw item d.
Proof.
  intros NE Em t. subst t.
  destruct (store_all_exact gw items [] 0) as (rows & E & F & _).
  rewrite E. simpl fst.
  assert (C : complete (length q) rows).
  { clear E NE. induction F as [| item r items rows W F IH]; [constructor |].
    inversion Em as [| ? ? (x & v & G & L) Em']; subst.
    constructor; [| apply IH, Em'].
    destruct W as (_ & _ & _ & _ & Ee).
    unfold get_embedding, encode in Ee. rewrite G in Ee.
    exists x, v. split; assumption. }
  assert (NR : rows <> []).
  { intro H. subst rows. inversion F. subst. contradiction. }
  destruct (top_k_complete q App.initial NR C)
    as (idx & docs & _ & T & L & F2 & _).
  exists docs. split; [exact T |].
  split; [rewrite L, (Forall2_length F); reflexivity |].
  intros d Hd. destruct (forall2_in_right F2 d Hd) as (i & _ & Hi).
  apply nth_error_In in Hi.
  destruct (written_all_load F) as [_ La].
  destruct (forall2_in_right La d Hi) as (item & Ii & Li).
  exists item. split; assumption.
Qed.

Lemma query_after_ingestion_returns_fetched_items_witness :
  exists docs,
    App.top_k_data
      (App.load_data
         (Ok (fst (store_all (embeds_as [1; 0]) [readme_document] [] 0)))
         App.initial) [1; 0]
    = Ok docs
    /\ length docs = Nat.min 5 (length [readme_document])
    /\ forall d, In d docs ->
         exists item, In item [readme_document]
                      /\ loaded_as (embeds_as [1; 0]) item d.
Proof.
  apply (@query_after_ingestion_returns_fetched_items
           (embeds_as [1; 0]) [readme_document] [1; 0]).
  - discriminate.
  - repeat constructor. exists 1, [0]. split; reflexivity.
Defined.

End RoundTrip.

(** ** More on the fetchers *)

Section FetcherFacts.

Import Numpy Store Gateway ScrapeData Ingestion Pipeline Worlds MoreWorlds.

Lemma collect_files_spec (gh : GitHub) (files : list FileEntry) :
  forall docs, collect_files gh files = Ok docs ->
  forall d, In d docs <->
            exists f text,
              In f files /\ wanted f = true
              /\ download gh (f_download_url f) = Response 200 text
              /\ d = mkRawDocument "github" text (f_html_url f) (f_name f).
Proof.
  induction files as [| f rest IH]; simpl; intros docs H d.
  - injection H as <-. split; [intros [] | intros (? & ? & [] & _)].
  - destruct (wanted f) eqn:W.
    + destruct (download gh (f_download_url f)) as [status text | e] eqn:Dl;
        [| discriminate].
      destruct (collect_files gh rest) as [more |]; [| discriminate].
      simpl in H. injection H as <-.
      specialize (IH more eq_refl d).
      destruct (Z.eqb_spec status 200) as [-> | Ns]; split.
      * intros [<- | I].
        -- exists f, text. auto.
        -- apply IH in I. destruct I as (f' & t' & I & R).
           exists f', t'. split; [right; exact I | exact R].
      * intros (f' & t' & [<- | I] & W' & D' & ->).
        -- rewrite Dl in D'. injection D' as <-. now left.
        -- right. apply IH. exists f', t'. auto.
      * intro I. apply IH in I. destruct I as (f' & t' & I & R).
        exists f', t'. split; [right; exact I | exact R].
      * intros (f' & t' & [<- | I] & W' & D' & ->).
        -- rewrite Dl in D'. injection D' as E200 _. contradiction.
        -- apply IH. exists f', t'. auto.
    + specialize (IH docs H d). rewrite IH. split.
      * intros (f' & t' & I & R). exists f', t'. split; [right; exact I | exact R].
      * intros (f' & t' & [<- | I] & W' & R); [congruence |].
        exists f', t'. auto.
Qed.

Lemma collect_files_raises (gh : GitHub) (files : list FileEntry)
      (f : FileEntry) (e : exn) :
  In f files -> wanted f = true ->
  download gh (f_download_url f) = NoResponse e ->
  exists e', collect_files gh files = Raise e'.
Proof.
  intros I W Dl. induction files as [| f0 rest IH]; [destruct I |].
  simpl. destruct I as [-> | I].
  - rewrite W, Dl. eexists. reflexivity.
  - destruct (IH I) as (e' & E').
    destruct (wanted f0); [| eexists; exact E'].
    destruct (download gh (f_download_url f0)); [| eexists; reflexivity].
    rewrite E'. eexists. reflexivity.
Qed.

Lemma attempts_origin (gh : GitHub) (attempts : list nat) (d : RawDocument) :
  In d (fst (github_attempts gh attempts)) ->
  exists attempt status files docs,
    In attempt attempts
    /\ listing gh attempt = Response status (Ok files)
    /\ is_error_status status = false
    /\ collect_files gh files = Ok docs /\ In d docs.
Proof.
  induction attempts as [| a rest IH]; simpl; [intros [] |].
  destruct (listing gh a) as [status body | e] eqn:L; [| intros []].
  destruct (is_error_status status) eqn:S.
  - destruct (status =? 503)%Z; [| intros []].
    destruct (github_attempts gh rest) as [docs sleeps]. simpl in *.
    intro I. destruct (IH I) as (a' & st & fs & ds & Ia & R).
    exists a', st, fs, ds. split; [right; exact Ia | exact R].
  - destruct body as [files | e]; simpl; [| intros []].
    destruct (collect_files gh files) as [docs |] eqn:C; [| intros []].
    simpl. intro I. exists a, status, files, docs. repeat split; auto.
Qed.

Lemma attempts_sleeps (gh : GitHub) (n : nat) :
  forall s, exists m,
    (m <= n)%nat
    /\ snd (github_attempts gh (seq s n))
       = map (fun attempt => (2 ^ Z.of_nat attempt)%Z) (seq s m)
    /\ (fst (github_attempts gh (seq s n)) <> [] -> (m < n)%nat).
Proof.
  induction n as [| n IH]; intro s; simpl.
  - exists 0%nat. repeat split; [lia | intro H; contradiction].
  - destruct (listing gh s) as [status body | e].
    + destruct (is_error_status status).
      * destruct (status =? 503)%Z.
        -- destruct (IH (S s)) as (m & Lm & Em & Nm).
           destruct (github_attempts gh (seq (S s) n)) as [docs sleeps].
           simpl in *. exists (S m). simpl. rewrite Em.
           repeat split; [lia | intro H; specialize (Nm H); lia].
        -- exists 0%nat. repeat split; [lia | intro H; contradiction].
      * exists 0%nat.
        destruct (files <- body ;; collect_files gh files);
          repeat split; try lia.
    + exists 0%nat. repeat split; [lia | intro H; contradiction].
Qed.

(** X9: whatever GitHub answers, every document of the file-archive fetcher
    is the text of a listed entry of type file, named [*.md] or [*.txt],
    whose download was answered with status 200, from a listing obtained
    at one of the three attempts. *)
Theorem github_documents_are_downloaded_text_files
        (gh : GitHub) (d : RawDocument) :
  In d (scrape_github gh) ->
  source d = "github"%string
  /\ (endswith (title d) ".md" || endswith (title d) ".txt") = true
  /\ exists attempt status files f,
       (attempt < 3)%nat
       /\ listing gh attempt = Response status (Ok files)
       /\ In f files /\ f_type f = "file"%string
       /\ f_name f = title d /\ f_html_url f = url d
       /\ download gh (f_download_url f) = Response 200 (content d).
Proof.
  unfold scrape_github, scrape_github_log. intro I.
  destruct (attempts_origin gh (seq 0 3) d I)
    as (a & st & fs & ds & Ia & L & _ & C & Id).
  apply (collect_files_spec gh fs C) in Id.
  destruct Id as (f & text & If & W & Dl & ->). simpl.
  unfold wanted in W. apply andb_prop in W. destruct W as [Wt Wn].
  split; [reflexivity |]. split; [exact Wn |].
  exists a, st, fs, f. apply in_seq in Ia. apply String.eqb_eq in Wt.
  repeat split; auto. lia.
Qed.

Lemma github_documents_are_downloaded_text_files_witness :
  source readme_document = "github"%string
  /\ (endswith (title readme_document) ".md"
      || endswith (title readme_document) ".txt") = true
  /\ exists attempt status files f,
       (attempt < 3)%nat
       /\ listing (twice_then_listing 503) attempt
          = Response status (Ok files)
       /\ In f files /\ f_type f = "file"%string
       /\ f_name f = title readme_document
       /\ f_html_url f = url readme_document
       /\ download (twice_then_listing 503) (f_download_url f)
          = Response 200 (content readme_document).
Proof.
  apply (@github_documents_are_downloaded_text_files
           (twice_then_listing 503) readme_document).
  simpl. left. reflexivity.
Defined.

(** X10: when the listing is obtained at the first attempt and the download
    of one wanted file raises, the fetcher returns nothing, also not the
    files it had downloaded, and does not try again. *)
Theorem failed_download_discards_the_listing
        (gh : GitHub) (status : Z) (files : list FileEntry)
        (f : FileEntry) (e : exn) :
  listing gh 0 = Response status (Ok files) ->
  is_error_status status = false ->
  In f files -> wanted f = true ->
  download gh (f_download_url f) = NoResponse e ->
  scrape_github_log gh = ([], []).
Proof.
  intros L S I W Dl.
  destruct (collect_files_raises gh files f I W Dl) as (e' & C).
  unfold scrape_github_log. simpl. rewrite L, S. simpl. rewrite C.
  reflexivity.
Qed.

Lemma failed_download_discards_the_listing_witness :
  scrape_github_log notes_time_out = ([], []).
Proof.
  apply (@failed_download_discards_the_listing
           notes_time_out 200 [readme; notes] notes ConnectionError);
    try reflexivity.
  simpl. right. left. reflexivity.
Defined.

(** X11: whatever GitHub answers, the fetcher sleeps 1, 2, 4, ... after at
    most three attempts, 7 units in all at most, and at most 1 + 2 when it
    returns documents. *)
Theorem backoff_is_bounded (gh : GitHub) :
  exists n,
    (n <= 3)%nat
    /\ snd (scrape_github_log gh) = backoff n
    /\ (0 <= total (snd (scrape_github_log gh)) <= 7)%Z
    /\ (scrape_github gh <> [] ->
        (n <= 2)%nat /\ (total (snd (scrape_github_log gh)) <= 3)%Z).
Proof.
  unfold scrape_github, scrape_github_log.
  destruct (attempts_sleeps gh 3 0) as (m & Lm & Em & Nm).
  exists m. rewrite Em. fold (backoff m).
  split; [exact Lm |]. split; [reflexivity |].
  split.
  - destruct m as [| [| [| [| m]]]]; try (vm_compute; split; discriminate).
    lia.
  - intro H. specialize (Nm H). split; [lia |].
    destruct m as [| [| [| m]]]; try (vm_compute; discriminate). lia.
Qed.

End FetcherFacts.

Section ForumFacts.

Import Numpy Store Gateway ScrapeData Ingestion Pipeline Worlds MoreWorlds.

Lemma dt_le_iff (a b : datetime) :
  dt_le a b = true
  <-> (day a < day b \/ (day a = day b /\ usec a <= usec b))%Z.
Proof.
  unfold dt_le.
  rewrite orb_true_iff, andb_true_iff, Z.ltb_lt, Z.eqb_eq, Z.leb_le.
  reflexivity.
Qed.

Lemma dt_le_trans (a b c : datetime) :
  dt_le a b = true -> dt_le b c = true -> dt_le a c = true.
Proof.
  rewrite !dt_le_iff. lia.
Qed.

Lemma between_window (start x stop : datetime) :
  between start x stop = true -> dt_le start stop = true.
Proof.
  unfold between. intro H. apply andb_prop in H. destruct H as [H1 H2].
  apply (dt_le_trans _ _ _ H1 H2).
Qed.

(** What a completed run of the forum fetcher returns is what [yields]
    describes, for the topics of the page it read (none after the early
    return). *)
Lemma body_origin (f : Forum) (start stop : datetime)
      (docs : list RawDocument) :
  discourse_body f start stop = Ok docs ->
  exists ts, forall d, In d docs <-> yields f start stop ts d.
Proof.
  unfold discourse_body.
  destruct (resolve_category f) as [[cid |] | e]; simpl; [| | discriminate].
  - destruct (checked_json (category_page f cid)) as [page | e];
      simpl; [| discriminate].
    intro C. exists (topics page).
    apply (collect_posts_spec f start stop (topics page) C).
  - intro H. injection H as <-. exists []. intro d.
    split; [intros [] | intros (? & ? & ? & ? & ? & [] & _)].
Qed.

(** What a completed run returns, with the page it was read from. *)
Lemma body_origin_page (f : Forum) (start stop : datetime)
      (docs : list RawDocument) :
  discourse_body f start stop = Ok docs ->
  docs = []
  \/ exists cid page,
       resolve_category f = Ok (Some cid)
       /\ checked_json (category_page f cid) = Ok page
       /\ forall d, In d docs <-> yields f start stop (topics page) d.
Proof.
  unfold discourse_body.
  destruct (resolve_category f) as [[cid |] | e]; simpl; [| | discriminate].
  - destruct (checked_json (category_page f cid)) as [page | e] eqn:P;
      simpl; [| discriminate].
    intro C. right. exists cid, page.
    split; [reflexivity |]. split; [exact P |].
    apply (collect_posts_spec f start stop (topics page) C).
  - intro H. injection H as <-. now left.
Qed.

(** X12: whatever the forum answers, every document of the forum fetcher
    has source discourse and is made of a post found on the page,
    answered with status 200, of a topic listed on the category page the
    fetcher read; the creation timestamp of that post lies between start
    and stop, bounds included, and so does the creation day of the topic,
    taken at midnight.  So no post of a day before the start day or after
    the stop day is returned, and on the stop day none later than the
    stop. *)
Theorem forum_documents_lie_in_the_window
        (f : Forum) (start stop : datetime) (d : RawDocument) :
  In d (scrape_discourse f start stop) ->
  source d = "discourse"%string
  /\ exists cid page t posts p created stamp,
       resolve_category f = Ok (Some cid)
       /\ checked_json (category_page f cid) = Ok page
       /\ In t (topics page)
       /\ topic_page f (topic_id t) = Response 200 (Ok posts)
       /\ In p posts
       /\ d = post_document t p
       /\ topic_created_at t = Some created
       /\ post_created_at p = Some stamp
       /\ dt_le start (midnight created) = true
       /\ dt_le (midnight created) stop = true
       /\ dt_le start stamp = true /\ dt_le stamp stop = true
       /\ (day start <= day stamp <= day stop)%Z
       /\ (day stamp = day stop -> (usec stamp <= usec stop)%Z).
Proof.
  unfold scrape_discourse.
  destruct (discourse_body f start stop) as [docs | e] eqn:B; [| intros []].
  intro I.
  destruct (body_origin_page f start stop B)
    as [-> | (cid & page & R & P & Y)]; [destruct I |].
  apply Y in I.
  destruct I as (t & created & posts & p & stamp & It & Ec & Bc & Et & Ip
                 & Ep & Bp & ->).
  split; [reflexivity |].
  exists cid, page, t, posts, p, created, stamp.
  unfold between in Bc, Bp.
  apply andb_prop in Bc. destruct Bc as [Bc1 Bc2].
  apply andb_prop in Bp. destruct Bp as [Bp1 Bp2].
  pose proof (proj1 (dt_le_iff _ _) Bp1) as L1.
  pose proof (proj1 (dt_le_iff _ _) Bp2) as L2.
  repeat split; auto; lia.
Qed.

Lemma forum_documents_lie_in_the_window_witness :
  source (post_document new_topic reply) = "discourse"%string
  /\ exists cid page t posts p created stamp,
       resolve_category forum_new_topic = Ok (Some cid)
       /\ checked_json (category_page forum_new_topic cid) = Ok page
       /\ In t (topics page)
       /\ topic_page forum_new_topic (topic_id t) = Response 200 (Ok posts)
       /\ In p posts
       /\ post_document new_topic reply = post_document t p
       /\ topic_created_at t = Some created
       /\ post_created_at p = Some stamp
       /\ dt_le start_date (midnight created) = true
       /\ dt_le (midnight created) end_date = true
       /\ dt_le start_date stamp = true /\ dt_le stamp end_date = true
       /\ (day start_date <= day stamp <= day end_date)%Z
       /\ (day stamp = day end_date -> (usec stamp <= usec end_date)%Z).
Proof.
  apply (@forum_documents_lie_in_the_window
           forum_new_topic start_date end_date (post_document new_topic reply)).
  simpl. left. reflexivity.
Defined.

(** X13: a window whose stop lies before its start yields nothing, whatever
    the forum holds. *)
Theorem empty_window_yields_nothing (f : Forum) (start stop : datetime) :
  dt_le start stop = false -> scrape_discourse f start stop = [].
Proof.
  intro W. unfold scrape_discourse.
  destruct (discourse_body f start stop) as [docs | e] eqn:B;
    [| reflexivity].
  destruct (body_origin f start stop B) as (ts & Y).
  destruct docs as [| d rest]; [reflexivity |]. exfalso.
  destruct (proj1 (Y d) (or_introl eq_refl))
    as (t & created & posts & p & stamp & _ & _ & _ & _ & _ & _ & Bp & _).
  apply between_window in Bp. congruence.
Qed.

Lemma empty_window_yields_nothing_witness :
  scrape_discourse forum_new_topic end_date start_date = [].
Proof.
  apply (@empty_window_yields_nothing forum_new_topic end_date start_date).
  reflexivity.
Defined.

Lemma find_category_cons (cat : Category) (rest : list Category) :
  find_category (cat :: rest)
  = if matches_keyword cat then Some (cat_id cat) else find_category rest.
Proof. reflexivity. Qed.

Lemma find_subcategory_cons (sub : Subcategory) (rest : list Subcategory)
      (current : Z) :
  find_subcategory (sub :: rest) current
  = if matches_slug sub then sub_id sub else find_subcategory rest current.
Proof. reflexivity. Qed.

Lemma find_category_none (cats : list Category) :
  Forall (fun cat => matches_keyword cat = false) cats ->
  find_category cats = None.
Proof.
  induction 1 as [| cat rest M _ IH]; [reflexivity |].
  rewrite find_category_cons, M. exact IH.
Qed.

Lemma find_subcategory_none (subs : list Subcategory) (current : Z) :
  Forall (fun sub => matches_slug sub = false) subs ->
  find_subcategory subs current = current.
Proof.
  induction 1 as [| sub rest M _ IH]; [reflexivity |].
  rewrite find_subcategory_cons, M. exact IH.
Qed.

Lemma find_category_first (cats : list Category) (cat : Category) :
  first_category cats cat -> find_category cats = Some (cat_id cat).
Proof.
  intros (before & after & -> & N & M).
  induction N as [| c before Hc _ IH]; simpl app.
  - rewrite find_category_cons, M. reflexivity.
  - rewrite find_category_cons, Hc. exact IH.
Qed.

Lemma find_subcategory_first (subs : list Subcategory) (sub : Subcategory)
      (current : Z) :
  first_subcategory subs sub -> find_subcategory subs current = sub_id sub.
Proof.
  intros (before & after & -> & N & M).
  induction N as [| c before Hc _ IH]; simpl app.
  - rewrite find_subcategory_cons, M. reflexivity.
  - rewrite find_subcategory_cons, Hc. exact IH.
Qed.

Lemma no_category_unset (cats : list Category) :
  no_category cats -> unset (find_category cats) = true.
Proof.
  intros [N | (cat & F & Z0)].
  - rewrite (find_category_none N). reflexivity.
  - rewrite (find_category_first F), Z0. reflexivity.
Qed.

Lemma resolved_is_not_zero (f : Forum) (c : Z) :
  resolve_category f = Ok (Some c) -> c <> 0%Z.
Proof.
  unfold resolve_category.
  destruct (checked_json (session_current f)) as [user | e];
    simpl; [| discriminate].
  destruct (checked_json (categories f)) as [cats | e];
    simpl; [| discriminate].
  destruct (unset (find_category cats)) eqn:U.
  - destruct (checked_json (category_page f 9)) as [page | e];
      simpl; [| discriminate].
    destruct (Z.eqb_spec (find_subcategory (subcategories page) 9) 0)
      as [| NZ]; [discriminate |].
    intro H. injection H as <-. exact NZ.
  - intro H. injection H as H. rewrite H in U. simpl in U.
    apply Z.eqb_neq, U.
Qed.

(** X15: when the session check and the category listing succeed, the
    forum fetcher reads the first listed category whose name, in lower
    case, holds one of the keywords, provided its id is not 0: later
    categories and the Courses page play no part, and the documents of
    the fetch are the posts collected from the topics of that category's
    page.  Whatever the forum answers, the category read is never 0. *)
Theorem first_matching_category_is_read
        (f : Forum) (user : string) (cats : list Category) (cat : Category) :
  checked_json (session_current f) = Ok user ->
  checked_json (categories f) = Ok cats ->
  first_category cats cat ->
  cat_id cat <> 0%Z ->
  resolve_category f = Ok (Some (cat_id cat))
  /\ (forall start stop,
         scrape_discourse f start stop
         = match (page <- checked_json (category_page f (cat_id cat)) ;;
                  collect_posts f start stop (topics page)) with
           | Ok posts => posts
           | Raise _ => []
           end)
  /\ (forall c, resolve_category f = Ok (Some c) -> c <> 0%Z).
Proof.
  intros S C F NZ.
  assert (R : resolve_category f = Ok (Some (cat_id cat))).
  { unfold resolve_category. rewrite S, C. simpl.
    rewrite (find_category_first F). simpl.
    apply Z.eqb_neq in NZ. rewrite NZ. reflexivity. }
  split; [exact R |]. split.
  - intros start stop. unfold scrape_discourse, discourse_body.
    rewrite R. reflexivity.
  - apply resolved_is_not_zero.
Qed.

Lemma first_matching_category_is_read_witness :
  resolve_category forum_new_topic = Ok (Some 34%Z).
Proof.
  apply (@first_matching_category_is_read
           forum_new_topic "student" [tds] tds); try reflexivity.
  - exists [], []. repeat split. constructor.
  - discriminate.
Defined.

(** X18: when the loop over the categories finds nothing (no name holds
    a keyword, or the first that does has id 0) and the Courses page,
    category 9, is read, the fetcher takes the first subcategory of that
    page whose slug, in lower case, holds tools-in-data-science: it reads
    the category of that id, and when that id is 0 it stops with the
    empty result. *)
Theorem first_matching_subcategory_is_read
        (f : Forum) (user : string) (cats : list Category)
        (page : CategoryPage) (sub : Subcategory) :
  checked_json (session_current f) = Ok user ->
  checked_json (categories f) = Ok cats ->
  no_category cats ->
  checked_json (category_page f 9) = Ok page ->
  first_subcategory (subcategories page) sub ->
  resolve_category f
  = Ok (if (sub_id sub =? 0)%Z then None else Some (sub_id sub))
  /\ (sub_id sub = 0%Z ->
      forall start stop, scrape_discourse f start stop = []).
Proof.
  intros S C N P F.
  assert (R : resolve_category f
              = Ok (if (sub_id sub =? 0)%Z then None else Some (sub_id sub))).
  { unfold resolve_category. rewrite S, C. simpl.
    rewrite (no_category_unset N), P. simpl.
    rewrite (find_subcategory_first 9 F).
    destruct (sub_id sub =? 0)%Z; reflexivity. }
  split; [exact R |].
  intros Z0 start stop. unfold scrape_discourse, discourse_body.
  rewrite R, Z0. reflexivity.
Qed.

Lemma first_matching_subcategory_is_read_witness :
  resolve_category forum_subcategory = Ok (Some 34%Z).
Proof.
  apply (@first_matching_subcategory_is_read
           forum_subcategory "student" [mkCategory "Mathematics" 12]
           (mkCategoryPage
              [mkSubcategory "Statistics" "statistics-kb" 30;
               mkSubcategory "TDS" "Tools-in-Data-Science-kb" 34]
              [new_topic])
           (mkSubcategory "TDS" "Tools-in-Data-Science-kb" 34));
    try reflexivity.
  - left. repeat constructor.
  - exists [mkSubcategory "Statistics" "statistics-kb" 30], [].
    repeat split. repeat constructor.
Defined.

(** X16: when the session check and the two listings succeed, no category
    name holds a keyword and no subcategory slug of the Courses page holds
    tools-in-data-science, the fetcher reads category 9. *)
Theorem unmatched_forum_falls_back_to_category_9
        (f : Forum) (user : string) (cats : list Category)
        (page : CategoryPage) :
  checked_json (session_current f) = Ok user ->
  checked_json (categories f) = Ok cats ->
  Forall (fun cat => matches_keyword cat = false) cats ->
  checked_json (category_page f 9) = Ok page ->
  Forall (fun sub => matches_slug sub = false) (subcategories page) ->
  resolve_category f = Ok (Some 9%Z)
  /\ forall start stop,
       scrape_discourse f start stop
       = match collect_posts f start stop (topics page) with
         | Ok posts => posts
         | Raise _ => []
         end.
Proof.
  intros S C Nc P Ns.
  assert (R : resolve_category f = Ok (Some 9%Z)).
  { unfold resolve_category. rewrite S, C. simpl.
    rewrite (find_category_none Nc). simpl. rewrite P. simpl.
    rewrite (find_subcategory_none 9 Ns). reflexivity. }
  split; [exact R |].
  intros start stop. unfold scrape_discourse, discourse_body.
  rewrite R. simpl. rewrite P. reflexivity.
Qed.

Lemma unmatched_forum_falls_back_to_category_9_witness :
  resolve_category forum_other_courses = Ok (Some 9%Z).
Proof.
  apply (@unmatched_forum_falls_back_to_category_9
           forum_other_courses "student"
           [mkCategory "Mathematics" 12] (mkCategoryPage [] []));
    try reflexivity; repeat constructor.
Defined.

Lemma keep_posts_raises (start stop : datetime) (t : Topic)
      (posts : list Post) (p : Post) :
  In p posts -> post_created_at p = None ->
  exists e, keep_posts start stop t posts = Raise e.
Proof.
  intros I N. induction posts as [| p0 rest IH]; [destruct I |].
  simpl. destruct I as [-> | I].
  - rewrite N. eexists. reflexivity.
  - destruct (IH I) as (e & E).
    destruct (post_created_at p0); simpl; [| eexists; reflexivity].
    rewrite E. eexists. reflexivity.
Qed.

Lemma spoiled_topic_raises (f : Forum) (start stop : datetime) (t : Topic) :
  spoils f start stop t -> exists e, topic_posts f start stop t = Raise e.
Proof.
  unfold topic_posts.
  intros [N | (created & Ec & B & [(e & P) | [(e & P) | (posts & p & P & I & N)]])].
  - rewrite N. eexists. reflexivity.
  - rewrite Ec. simpl. rewrite B, P. eexists. reflexivity.
  - rewrite Ec. simpl. rewrite B, P. eexists. reflexivity.
  - rewrite Ec. simpl. rewrite B, P. simpl.
    apply (keep_posts_raises start stop t posts p I N).
Qed.

Lemma collect_posts_raises (f : Forum) (start stop : datetime)
      (ts : list Topic) (t : Topic) :
  In t ts -> (exists e, topic_posts f start stop t = Raise e) ->
  exists e, collect_posts f start stop ts = Raise e.
Proof.
  intros I (e & E). induction ts as [| t0 rest IH]; [destruct I |].
  simpl. destruct I as [-> | I].
  - rewrite E. eexists. reflexivity.
  - destruct (IH I) as (e' & E').
    destruct (topic_posts f start stop t0); simpl; [| eexists; reflexivity].
    rewrite E'. eexists. reflexivity.
Qed.

(** X17: one topic of the category page is enough to lose the whole fetch:
    when its date is unreadable, or it lies in the window and its page
    cannot be fetched or decoded or holds a post with an unreadable date,
    the forum fetcher returns nothing, also not the posts of the other
    topics. *)
Theorem one_bad_topic_empties_the_forum_fetch
        (f : Forum) (start stop : datetime) (cid : Z) (page : CategoryPage)
        (t : Topic) :
  resolve_category f = Ok (Some cid) ->
  checked_json (category_page f cid) = Ok page ->
  In t (topics page) -> spoils f start stop t ->
  scrape_discourse f start stop = [].
Proof.
  intros R P I B.
  destruct (collect_posts_raises f start stop (topics page) t I
              (spoiled_topic_raises B)) as (e & E).
  unfold scrape_discourse, discourse_body. rewrite R. simpl.
  rewrite P. simpl. rewrite E. reflexivity.
Qed.

Lemma one_bad_topic_empties_the_forum_fetch_witness :
  scrape_discourse forum_lost_page start_date end_date = [].
Proof.
  apply (@one_bad_topic_empties_the_forum_fetch
           forum_lost_page start_date end_date 34
           (mkCategoryPage [] [new_topic; lost_topic]) lost_topic);
    try reflexivity.
  - simpl. right. left. reflexivity.
  - right. exists first_morning. repeat split.
    left. exists ConnectionError. reflexivity.
Defined.

End ForumFacts.
